(** * The settings service of the store API

    A shallow embedding of [src/api/server/services/settings/settings.js]
    (class [SettingsService]) and the properties of its read path, update
    validator, write path and logo life cycle.

    The service keeps one shared mutable object, [this.defaultSettings], and
    talks to three collaborators: the [settings] collection of the database,
    the file system and the coercion helpers of [lib/parse].  The embedding
    threads the shared object, the collection and the files through an
    explicit state. *)

From Stdlib Require Import List String ZArith Bool Lia.
Import ListNotations.
Open Scope string_scope.
Open Scope list_scope.

(** ** JavaScript values and objects *)

Module Js.

(** Numbers: the integers and [NaN] are all the service ever inspects
    (the defaults [2] and [30], the fallback [0], truthiness). *)
Inductive number : Type :=
| NaN
| Num (z : Z).

Inductive value : Type :=
| VUndefined
| VNull
| VBool (b : bool)
| VNumber (n : number)
| VString (s : string).

(** [!!v] *)
Definition truthy (v : value) : bool :=
  match v with
  | VUndefined | VNull => false
  | VBool b => b
  | VNumber NaN => false
  | VNumber (Num z) => negb (Z.eqb z 0)
  | VString s => negb (String.eqb s "")
  end.

(** [v === undefined] *)
Definition is_undefined (v : value) : bool :=
  match v with VUndefined => true | _ => false end.

(** [v === null || v === undefined] *)
Definition is_nullish (v : value) : bool :=
  match v with VUndefined | VNull => true | _ => false end.

Definition is_string (v : value) : bool :=
  match v with VString _ => true | _ => false end.

(** [a || b] *)
Definition or_else (a b : value) : value := if truthy a then a else b.

(** [v && v.length > 0]: among the values above only a string has a
    [length]; for the others [v.length] is [undefined] and the comparison
    with [0] is false.  The result carries the string when the test holds. *)
Definition nonempty_string (v : value) : option string :=
  match v with
  | VString s => if truthy v && (0 <? String.length s)%nat then Some s else None
  | _ => None
  end.

(** A plain object: its own enumerable properties in insertion order, the
    order [Object.keys] and [Object.assign] walk through.  A list of
    entries stands for the object obtained by writing the entries one after
    the other, so a later entry for a key shadows an earlier one.  (Keys
    that look like array indices, which JavaScript lists first, do not
    occur among the settings.) *)
Definition object : Type := list (string * value).

Fixpoint lookup {A : Type} (o : list (string * A)) (k : string) : option A :=
  match o with
  | [] => None
  | (k', v) :: o' =>
      match lookup o' k with
      | Some w => Some w
      | None => if String.eqb k' k then Some v else None
      end
  end.

(** [o[k]]: reading a property that is not there gives [undefined]. *)
Definition get (o : object) (k : string) : value :=
  match lookup o k with
  | Some v => v
  | None => VUndefined
  end.

(** [Object.keys(o)] *)
Definition keys {A : Type} (o : list (string * A)) : list string :=
  map fst o.

Definition has_key {A : Type} (o : list (string * A)) (k : string) : bool :=
  existsb (String.eqb k) (keys o).

(** [o[k] = v]: an existing property keeps its place, a new one goes last. *)
Definition set {A : Type} (o : list (string * A)) (k : string) (v : A)
  : list (string * A) :=
  if has_key o k
  then map (fun kv => if String.eqb (fst kv) k then (k, v) else kv) o
  else o ++ [(k, v)].

(** [Object.assign(target, source)] *)
Definition assign {A : Type} (target source : list (string * A))
  : list (string * A) :=
  fold_left (fun t kv => set t (fst kv) (snd kv)) source target.

(** Thrown values. *)
Inductive exn : Type :=
| Error (message : string)
| TypeError (message : string).

(** The outcome of a call: a value, or an exception (a rejected promise). *)
Inductive result (A : Type) : Type :=
| Ok (a : A)
| Throw (e : exn).
Arguments Ok {A} a.
Arguments Throw {A} e.

(** What a function that builds a document may hand back: a plain object,
    or an [Error] instance that was returned instead of thrown. *)
Inductive returned : Type :=
| PlainObject (o : object)
| ErrorObject (message : string).

(** The own enumerable properties: an [Error] instance has none (its
    [message] and [stack] are not enumerable). *)
Definition enumerable (r : returned) : object :=
  match r with
  | PlainObject o => o
  | ErrorObject _ => []
  end.

End Js.
Import Js.

(** ** Stored documents *)

(** What the database keeps in a field.  A stored field is never
    [undefined]: the driver writes [undefined] as [null]. *)
Inductive bson : Type :=
| BNull
| BBool (b : bool)
| BNumber (n : number)
| BString (s : string).

Definition document : Type := list (string * bson).

Definition to_bson (v : value) : bson :=
  match v with
  | VUndefined | VNull => BNull
  | VBool b => BBool b
  | VNumber n => BNumber n
  | VString s => BString s
  end.

Definition of_bson (b : bson) : value :=
  match b with
  | BNull => VNull
  | BBool b => VBool b
  | BNumber n => VNumber n
  | BString s => VString s
  end.

Definition serialize (o : object) : document :=
  map (fun kv => (fst kv, to_bson (snd kv))) o.

Definition deserialize (d : document) : object :=
  map (fun kv => (fst kv, of_bson (snd kv))) d.

(** ** The collaborators the module imports *)

(** [lib/parse]: the coercion helpers.  They are not part of the sources;
    the service is modelled over any implementation of them. *)
Class Parse : Type := {
  getString : value -> value;
  getNumberIfPositive : value -> value;
  getBooleanIfValid : value -> value -> value
}.

(** [lib/settings]: the two configuration constants the service reads. *)
Class Settings : Type := {
  filesUploadUrl : string;
  filesUploadPath : string
}.

(** Node's [url] and [path] modules: the resolution algorithms on strings. *)
Class Node : Type := {
  resolve_url : string -> string -> string;
  path_resolve : string -> string
}.

(** The identity the database gives to a document inserted without one. *)
Class Mongo : Type := {
  objectId : bson
}.

(** ** The state the service runs in *)

(** What the service does to the outside world, in order. *)
Inductive effect : Type :=
| FindOne
| CountDocuments
| InsertOne (d : document)
| UpdateOne (fields : document)
| Unlink (path : string).

Record state : Type := mkState {
  defaultSettings : object;      (* this.defaultSettings, one shared object *)
  collection : list document;    (* db.collection('settings') *)
  files : list string;           (* the paths that exist on disk *)
  trace : list effect
}.

(** A computation: it may change the state and either yields a value or
    throws (a promise that is rejected). *)
Definition M (A : Type) : Type := state -> state * result A.

Definition ret {A : Type} (a : A) : M A := fun st => (st, Ok a).

Definition bind {A B : Type} (m : M A) (k : A -> M B) : M B :=
  fun st =>
    match m st with
    | (st', Ok a) => k a st'
    | (st', Throw e) => (st', Throw e)
    end.

Notation "x <- m ;; k" := (bind m (fun x => k))
  (at level 61, m at next level, right associativity).
Notation "m ;; k" := (bind m (fun _ => k))
  (at level 61, right associativity).

Definition emit (e : effect) (st : state) : state :=
  mkState (defaultSettings st) (collection st) (files st) (trace st ++ [e]).

Definition set_defaultSettings (d : object) (st : state) : state :=
  mkState d (collection st) (files st) (trace st).

Definition set_collection (c : list document) (st : state) : state :=
  mkState (defaultSettings st) c (files st) (trace st).

Definition set_files (f : list string) (st : state) : state :=
  mkState (defaultSettings st) (collection st) f (trace st).

(** ** The database and the file system *)

Section Repository.
Context {mongo : Mongo}.

(** A document inserted with no [_id] (or a null one) receives one. *)
Definition with_id (d : document) : document :=
  match lookup d "_id" with
  | None | Some BNull => set d "_id" objectId
  | Some _ => d
  end.

(** Modelled from the spec: the repository contract, [findOne() ->
    Record|null]; [lib/mongo] and the driver behind it are not part of the
    sources.  The first document is the one found. *)
Definition findOne : M (option document) :=
  fun st => (emit FindOne st, Ok (hd_error (collection st))).

(** Modelled from the spec: the repository contract, [count() -> integer]
    ([countDocuments({})] in the source). *)
Definition countDocuments : M nat :=
  fun st => (emit CountDocuments st, Ok (List.length (collection st))).

(** Modelled from the spec: the repository contract, [insertOne(Record)].
    The collection keeps a serialized copy of the object it is given. *)
Definition insertOne (o : object) : M unit :=
  fun st =>
    let d := with_id (serialize o) in
    (emit (InsertOne d) (set_collection (collection st ++ [d]) st), Ok tt).

(** Modelled from the spec: the repository contract, [upsert(filter={},
    patch, {createIfMissing:true})], that is [updateOne({}, {$set: fields},
    {upsert: true})]: the fields are set one by one on the first document,
    and a document is created from them when there is none.  With no field
    to set the document stays as it is. *)
Definition updateOne_set_upsert (fields : object) : M unit :=
  fun st =>
    let c := match collection st with
             | [] => [with_id (assign [] (serialize fields))]
             | d :: rest => assign d (serialize fields) :: rest
             end in
    (emit (UpdateOne (serialize fields)) (set_collection c st), Ok tt).

End Repository.

(** [fs.unlink(path, callback)]: removes the file when it exists; the
    callback receives an error when it does not. *)
Definition unlink (path : string) : state -> state * option exn :=
  fun st =>
    let st' := emit (Unlink path) st in
    if existsb (String.eqb path) (files st)
    then (set_files (filter (fun f => negb (String.eqb path f)) (files st)) st',
          None)
    else (st', Some (Error "ENOENT")).

(** ** class SettingsService *)

(** The object literal the constructor stores in [this.defaultSettings]. *)
Definition defaultsTable : object :=
  [ ("domain", VString "");
    ("logo_file", VNull);
    ("language", VString "en");
    ("currency_code", VString "USD");
    ("currency_symbol", VString "$");
    ("currency_format", VString "${amount}");
    ("thousand_separator", VString ",");
    ("decimal_separator", VString ".");
    ("decimal_number", VNumber (Num 2));
    ("timezone", VString "Asia/Singapore");
    ("date_format", VString "MMMM D, YYYY");
    ("time_format", VString "h:mm a");
    ("default_shipping_country", VString "SG");
    ("default_shipping_state", VString "");
    ("default_shipping_city", VString "");
    ("default_product_sorting", VString "stock_status,price,position");
    ("product_fields", VString
       "path,id,name,category_id,category_name,sku,images,enabled,discontinued,stock_status,stock_quantity,price,on_sale,regular_price,attributes,tags,position");
    ("products_limit", VNumber (Num 30));
    ("weight_unit", VString "kg");
    ("length_unit", VString "cm");
    ("hide_billing_address", VBool false);
    ("order_confirmation_copy_to", VString "") ].

(** [new SettingsService()] next to a database and a disk. *)
Definition constructor (db : list document) (disk : list string) : state :=
  mkState defaultsTable db disk [].

(** The [case] labels that share the [parse.getString] branch. *)
Definition string_cases : list string :=
  [ "language"; "currency_code"; "domain"; "currency_symbol";
    "currency_format"; "thousand_separator"; "decimal_separator";
    "timezone"; "date_format"; "time_format"; "default_shipping_country";
    "default_shipping_state"; "default_shipping_city";
    "default_product_sorting"; "product_fields"; "weight_unit";
    "length_unit"; "logo_file"; "order_confirmation_copy_to" ].

(** The labels of the whole [switch]. *)
Definition switch_cases : list string :=
  string_cases ++
  ["decimal_number"; "products_limit"; "hide_billing_address"].

Definition is_case (key : string) : bool :=
  existsb (String.eqb key) switch_cases.

Section Service.
Context {parse : Parse} {settings : Settings} {node : Node} {mongo : Mongo}.

(** [url.resolve(source, relative)]: Node parses [source] first and throws
    a [TypeError] when it is not a string. *)
Definition url_resolve (source : value) (relative : string) : result string :=
  match source with
  | VString s => Ok (resolve_url s relative)
  | _ => Throw (TypeError "Parameter 'url' must be a string")
  end.

(** The [switch (key)] of [getValidDocumentForUpdate]: the value stored
    under [key], or the error of the [default] branch. *)
Definition switch (key : string) (v : value) : result value :=
  if existsb (String.eqb key) string_cases then Ok (getString v)
  else if String.eqb key "decimal_number"
  then Ok (or_else (getNumberIfPositive v) (VNumber (Num 0)))
  else if String.eqb key "products_limit" then Ok (getNumberIfPositive v)
  else if String.eqb key "hide_billing_address"
  then Ok (getBooleanIfValid v (VBool false))
  else Throw (Error ("Unknown setting: " ++ key)%string).

(** [Object.keys(this.defaultSettings).forEach(key => ...)] filling the
    local object [settings]; a throw leaves the loop. *)
Fixpoint forEach (ks : list string) (data settings : object) : result object :=
  match ks with
  | [] => Ok settings
  | key :: ks' =>
      if negb (is_undefined (get data key)) then
        match switch key (get data key) with
        | Ok v => forEach ks' data (set settings key v)
        | Throw e => Throw e
        end
      else forEach ks' data settings
  end.

Definition getValidDocumentForUpdate (this_defaultSettings data : object)
  : result returned :=
  if Nat.eqb (List.length (keys data)) 0
  then Ok (ErrorObject "Required fields are missing")
  else
    match forEach (keys this_defaultSettings) data [] with
    | Ok settings => Ok (PlainObject settings)
    | Throw e => Throw e
    end.

(** [Object.assign(this.defaultSettings, settingsFromDB, {_id: undefined})]
    followed by the normalisation of [domain]: the object called [data] in
    [changeProperties], which is [this.defaultSettings] itself. *)
Definition merged (this_defaultSettings : object)
    (settingsFromDB : option document) : object :=
  let fromDB := match settingsFromDB with
                | Some d => deserialize d
                | None => []
                end in
  let data := assign (assign this_defaultSettings fromDB) [("_id", VUndefined)] in
  if is_nullish (get data "domain") then set data "domain" (VString "")
  else data.

(** [changeProperties(settingsFromDB)].  The first component is
    [this.defaultSettings] after the call, the second what the call returns;
    on success both are the same object. *)
Definition changeProperties (this_defaultSettings : object)
    (settingsFromDB : option document) : object * result object :=
  let data := merged this_defaultSettings settingsFromDB in
  match nonempty_string (get data "logo_file") with
  | Some logo_file =>
      match url_resolve (get data "domain")
                        (filesUploadUrl ++ "/" ++ logo_file)%string with
      | Ok logo => let data := set data "logo" (VString logo) in (data, Ok data)
      | Throw e => (data, Throw e)
      end
  | None => let data := set data "logo" VNull in (data, Ok data)
  end.

Definition getSettings : M object :=
  settingsFromDB <- findOne ;;
  fun st =>
    let (d, r) := changeProperties (defaultSettings st) settingsFromDB in
    (set_defaultSettings d st, r).

Definition insertDefaultSettingsIfEmpty : M unit :=
  count <- countDocuments ;;
  if Nat.eqb count 0
  then fun st => insertOne (defaultSettings st) st
  else ret tt.

Definition updateSettings (data : object) : M object :=
  fun st =>
    match getValidDocumentForUpdate (defaultSettings st) data with
    | Throw e => (st, Throw e)
    | Ok settings =>
        (insertDefaultSettingsIfEmpty ;;
         updateOne_set_upsert (enumerable settings) ;;
         getSettings) st
    end.

(** [deleteLogo()].  The callback of [fs.unlink] ignores its [err] and the
    promise of the [updateSettings] it starts is dropped. *)
Definition deleteLogo : M unit :=
  data <- getSettings ;;
  match nonempty_string (get data "logo_file") with
  | Some logo_file =>
      fun st =>
        let filePath := path_resolve (filesUploadPath ++ "/" ++ logo_file)%string in
        let (st1, _) := unlink filePath st in
        let (st2, _) := updateSettings [("logo_file", VNull)] st1 in
        (st2, Ok tt)
  | None => ret tt
  end.

(** The defaults object after a run of reads, each with what [findOne]
    gave at the time. *)
Definition defaults_after (reads : list (option document)) : object :=
  fold_left (fun d r => fst (changeProperties d r)) reads defaultsTable.

(** The state [updateSettings] has reached when it starts its final
    [getSettings]: the seed inserted if the collection was empty, then the
    fields set on the first document. *)
Definition seeded (st : state) : list document :=
  match collection st with
  | [] => [with_id (serialize (defaultSettings st))]
  | c => c
  end.

Definition written (fields : object) (st : state) : state :=
  mkState (defaultSettings st)
          (match seeded st with
           | d :: rest => assign d (serialize fields) :: rest
           | [] => []
           end)
          (files st)
          (trace st ++
           CountDocuments ::
           (match collection st with
            | [] => [InsertOne (with_id (serialize (defaultSettings st)))]
            | _ => []
            end) ++
           [UpdateOne (serialize fields)]).

End Service.

(** ** Conditions on inputs used in the statements *)

(** [data[key] !== undefined] *)
Definition present (data : object) (key : string) : bool :=
  negb (is_undefined (get data key)).

(** No property of the table that the input carries falls to the [default]
    branch of the [switch]. *)
Definition accepted (this_defaultSettings data : object) : bool :=
  forallb (fun k => negb (present data k) || is_case k)
          (keys this_defaultSettings).

(** Every field of the defaults table reads as something defined. *)
Definition complete (o : object) : Prop :=
  forall k, In k (keys defaultsTable) -> get o k <> VUndefined.

(** The [domain] of a persisted record is a string, null or missing. *)
Definition domain_ok (r : option document) : bool :=
  match r with
  | None => true
  | Some d =>
      match lookup d "domain" with
      | None | Some BNull | Some (BString _) => true
      | Some _ => false
      end
  end.

(** ** One implementation of the collaborators

    The theorems below hold for every implementation; this one instantiates
    them in the examples. *)

Module Sample.

(** Modelled from the spec: the coercion utilities contract,
    [parseString(any) -> string] (a non-string becomes the empty string),
    [parsePositiveNumber(any) -> number|invalid-sentinel] (the sentinel
    taken to be [null]) and [parseBoolean(any, default) -> boolean]. *)
Definition parse : Parse := {|
  getString v := match v with VString _ => v | _ => VString "" end;
  getNumberIfPositive v :=
    match v with
    | VNumber (Num z) => if (0 <? z)%Z then v else VNull
    | _ => VNull
    end;
  getBooleanIfValid v d := match v with VBool _ => v | _ => d end
|}.

Definition settings : Settings := {|
  filesUploadUrl := "/images";
  filesUploadPath := "public/content"
|}.

(** Resolution of a path-absolute reference against an origin, and of a
    relative path against a working directory. *)
Definition node : Node := {|
  resolve_url source relative := (source ++ relative)%string;
  path_resolve p := ("/srv/store/" ++ p)%string
|}.

Definition mongo : Mongo := {| objectId := BString "5c9e1f0a" |}.

(** A record with a logo, and one whose [domain] is a number. *)
Definition shop : document :=
  [("domain", BString "http://shop.test"); ("logo_file", BString "x.png")].

Definition malformed : document :=
  [("domain", BNumber (Num 5)); ("logo_file", BString "x.png")].

(** The path [deleteLogo] resolves for [x.png]. *)
Definition logo_path : string := "/srv/store/public/content/x.png".

End Sample.

(** ** The upload of a logo *)

(** [lib/utils]: the sanitiser of file names; it is not part of the
    sources and is left as a parameter. *)
Class Utils : Type := {
  getCorrectFileName : string -> string
}.

(** What reaches [getErrorMessage]: a string, or an error object. *)
Inductive err : Type :=
| Message (s : string)
| Thrown (e : exn).

(** [err.toString()]: a string is itself; an error object gives its name,
    followed by a colon and its message when it has one. *)
Definition toString (e : err) : string :=
  match e with
  | Message s => s
  | Thrown (Error m) =>
      if String.eqb m "" then "Error" else ("Error: " ++ m)%string
  | Thrown (TypeError m) =>
      if String.eqb m "" then "TypeError" else ("TypeError: " ++ m)%string
  end.

Definition getErrorMessage (e : err) : object :=
  [("error", VBool true); ("message", VString (toString e))].

(** The object formidable makes for a file part. *)
Module File.
Record t : Type := mk { name : string; path : string; size : nat }.
End File.

(** [res.status(code).send(body)]; a bare [res.send] has status 200. *)
Record response : Type := mkResponse {
  status : nat;
  body : object
}.

(** What the parser meets in a request, in order: file parts, each with
    the object made for it and the number of bytes it carries, and possibly
    a failure. *)
Inductive incoming : Type :=
| FilePart (file : File.t) (bytes : nat)
| Failure (e : err).

Definition is_file_part (i : incoming) : bool :=
  match i with FilePart _ _ => true | Failure _ => false end.

(** One call of [uploadLogo]: the service state, the directories ensured,
    the locals [file_name] and [file_size], and what was sent on [res]. *)
Record upload : Type := mkUpload {
  service : state;
  ensured : list string;
  file_name : value;
  file_size : nat;
  sent : list response
}.

Definition send (r : response) (u : upload) : upload :=
  mkUpload (service u) (ensured u) (file_name u) (file_size u) (sent u ++ [r]).

Definition set_service (st : state) (u : upload) : upload :=
  mkUpload st (ensured u) (file_name u) (file_size u) (sent u).

(** The parser has flushed a file to [path]. *)
Definition flushed (path : string) (st : state) : state :=
  if existsb (String.eqb path) (files st) then st
  else set_files (files st ++ [path]) st.

Section Upload.
Context {parse : Parse} {settings : Settings} {node : Node} {mongo : Mongo}
        {utils : Utils}.

(** [.on('fileBegin', (name, file) => ...)] *)
Definition onFileBegin (uploadDir : string) (file : File.t) : File.t :=
  let name := getCorrectFileName (File.name file) in
  File.mk name (uploadDir ++ "/" ++ name)%string (File.size file).

(** [.on('file', function(field, file) ...)] *)
Definition onFile (file : File.t) (u : upload) : upload :=
  mkUpload (service u) (ensured u) (VString (File.name file)) (File.size file)
           (sent u).

(** [.on('error', err => ...)] *)
Definition onError (e : err) (u : upload) : upload :=
  send (mkResponse 500 (getErrorMessage e)) u.

(** [.on('end', () => ...)].  The promise of [updateSettings] is dropped;
    only a throw of the validator, which is synchronous, would leave the
    handler before [res.send]. *)
Definition onEnd (u : upload) : upload * result unit :=
  if truthy (file_name u) then
    match getValidDocumentForUpdate (defaultSettings (service u))
            [("logo_file", file_name u)] with
    | Throw e => (u, Throw e)
    | Ok _ =>
        let (st, _) := updateSettings [("logo_file", file_name u)] (service u) in
        (send (mkResponse 200
                 [("file", file_name u);
                  ("size", VNumber (Num (Z.of_nat (file_size u))))])
              (set_service st u),
         Ok tt)
    end
  else
    (send (mkResponse 400
             (getErrorMessage (Message "Required fields are missing"))) u,
     Ok tt).

(** A file part goes through [fileBegin], is flushed to the [path] the
    handler chose, and is announced by [file] with its size. *)
Definition onPart (uploadDir : string) (file : File.t) (bytes : nat)
    (u : upload) : upload :=
  let file := onFileBegin uploadDir file in
  onFile (File.mk (File.name file) (File.path file) bytes)
         (set_service (flushed (File.path file) (service u)) u).

(** Modelled from the spec: the upload transport contract, [form.parse(req)]
    (formidable is not part of the sources): the parser emits, for each file
    part, "file part begins" and, once the bytes are on disk, "file part
    complete"; then "parse complete"; a failure emits "error" and ends the
    parse. *)
Fixpoint form_parse (uploadDir : string) (req : list incoming) (u : upload)
  : upload * result unit :=
  match req with
  | [] => onEnd u
  | FilePart file bytes :: rest =>
      form_parse uploadDir rest (onPart uploadDir file bytes u)
  | Failure e :: _ => (onError e u, Ok tt)
  end.

Definition uploadLogo (req : list incoming) (st : state)
  : upload * result unit :=
  let uploadDir := path_resolve filesUploadPath in
  form_parse uploadDir req (mkUpload st [uploadDir] VNull 0 []).

End Upload.

(** An instance of the sanitiser and a file part for the examples. *)
Module SampleUpload.

Definition utils : Utils := {|
  getCorrectFileName n := if String.eqb n "my logo.png" then "my-logo.png" else n
|}.

Definition logo : File.t := File.mk "my logo.png" "/tmp/upload_1" 0.

Definition nameless : File.t := File.mk "" "/tmp/upload_2" 0.

(** A service that has read the record of the shop once. *)
Definition after_read : state :=
  fst (getSettings (settings := Sample.settings) (node := Sample.node)
         (constructor [Sample.shop] [Sample.logo_path])).

End SampleUpload.

(** ** Properties of objects *)

Section ObjectLemmas.
Context {A : Type}.
Implicit Types (o s : list (string * A)) (k : string) (v : A).

Lemma lookup_app o s k :
  lookup (o ++ s) k =
  match lookup s k with Some v => Some v | None => lookup o k end.
Proof.
  induction o as [|[k' v'] o IH]; simpl.
  - now destruct (lookup s k).
  - rewrite IH. now destruct (lookup s k).
Qed.

Lemma lookup_None_keys o k : lookup o k = None <-> ~ In k (keys o).
Proof.
  induction o as [|[k' v'] o IH]; simpl; [tauto|].
  destruct (lookup o k) eqn:E.
  - split; [discriminate|]. intros H. exfalso.
    assert (Hn : ~ In k (keys o)) by tauto.
    apply IH in Hn. discriminate.
  - destruct (String.eqb k' k) eqn:E'.
    + apply String.eqb_eq in E'. split; [discriminate | tauto].
    + apply String.eqb_neq in E'. split; [|easy].
      intros _ [H|H]; [easy | now apply IH].
Qed.

Lemma has_key_In o k : has_key o k = true <-> In k (keys o).
Proof.
  unfold has_key. rewrite existsb_exists. split.
  - intros [x [Hin Hx]]. apply String.eqb_eq in Hx. now subst.
  - intros Hin. exists k. split; [easy | apply String.eqb_refl].
Qed.

Lemma has_key_false o k : has_key o k = false <-> lookup o k = None.
Proof.
  rewrite lookup_None_keys, <- has_key_In.
  destruct (has_key o k); split; congruence.
Qed.

Lemma lookup_replace o k k' v :
  lookup (map (fun kv => if String.eqb (fst kv) k then (k, v) else kv) o) k' =
  if String.eqb k k'
  then match lookup o k with Some _ => Some v | None => None end
  else lookup o k'.
Proof.
  induction o as [|[k0 v0] o IH]; simpl.
  - now destruct (String.eqb k k').
  - destruct (String.eqb k0 k) eqn:E0; simpl; rewrite IH.
    + apply String.eqb_eq in E0; subst k0.
      destruct (String.eqb k k') eqn:E; [|now destruct (lookup o k')].
      apply String.eqb_eq in E; subst k'.
      rewrite ?String.eqb_refl. now destruct (lookup o k).
    + destruct (String.eqb k k') eqn:E; [|easy].
      apply String.eqb_eq in E; subst k'. rewrite ?E0.
      now destruct (lookup o k).
Qed.

Lemma lookup_set o k k' v :
  lookup (set o k v) k' = if String.eqb k k' then Some v else lookup o k'.
Proof.
  unfold set. destruct (has_key o k) eqn:H.
  - rewrite lookup_replace. destruct (String.eqb k k'); [|easy].
    destruct (lookup o k) eqn:E; [easy|].
    apply has_key_false in E. congruence.
  - rewrite lookup_app; simpl. now destruct (String.eqb k k').
Qed.

Lemma lookup_assign o s k :
  lookup (assign o s) k =
  match lookup s k with Some v => Some v | None => lookup o k end.
Proof.
  unfold assign.
  revert o; induction s as [|[k0 v0] s IH]; intros o; simpl; [easy|].
  rewrite IH, lookup_set.
  destruct (lookup s k); [easy|]. now destruct (String.eqb k0 k).
Qed.

Lemma keys_set o k v :
  keys (set o k v) = if has_key o k then keys o else keys o ++ [k].
Proof.
  unfold set. destruct (has_key o k).
  - unfold keys. rewrite map_map. apply map_ext_in.
    intros [k0 v0] _; simpl.
    destruct (String.eqb k0 k) eqn:E; [|easy].
    apply String.eqb_eq in E. now subst.
  - unfold keys. now rewrite map_app.
Qed.

Lemma In_keys_set o k k' v : In k' (keys o) -> In k' (keys (set o k v)).
Proof.
  intros Hin. rewrite keys_set.
  destruct (has_key o k); [easy | apply in_or_app; now left].
Qed.

Lemma In_keys_assign o s k : In k (keys o) -> In k (keys (assign o s)).
Proof.
  unfold assign. revert o.
  induction s as [|[k0 v0] s IH]; intros o Hin; simpl; [easy|].
  apply IH. now apply In_keys_set.
Qed.

Lemma NoDup_keys_set o k v : NoDup (keys o) -> NoDup (keys (set o k v)).
Proof.
  intros Hnd. rewrite keys_set. destruct (has_key o k) eqn:H; [easy|].
  apply NoDup_app; [easy | repeat constructor; easy |].
  intros x Hx [<-|[]]. apply has_key_In in Hx. congruence.
Qed.

Lemma lookup_map_values {B : Type} (f : A -> B) o k :
  lookup (map (fun kv => (fst kv, f (snd kv))) o) k = option_map f (lookup o k).
Proof.
  induction o as [|[k' v'] o IH]; simpl; [easy|].
  rewrite IH. destruct (lookup o k); simpl; [easy|].
  now destruct (String.eqb k' k).
Qed.

Lemma keys_map_values {B : Type} (f : A -> B) o :
  keys (map (fun kv => (fst kv, f (snd kv))) o) = keys o.
Proof.
  unfold keys. rewrite map_map. now apply map_ext.
Qed.

End ObjectLemmas.

Lemma get_set (o : object) k k' v :
  get (set o k v) k' = if String.eqb k k' then v else get o k'.
Proof.
  unfold get. rewrite lookup_set. now destruct (String.eqb k k').
Qed.

Lemma get_assign (o s : object) k :
  get (assign o s) k =
  match lookup s k with Some v => v | None => get o k end.
Proof.
  unfold get. rewrite lookup_assign. now destruct (lookup s k).
Qed.

Lemma lookup_serialize (o : object) k :
  lookup (serialize o) k = option_map to_bson (lookup o k).
Proof. apply lookup_map_values. Qed.

Lemma lookup_deserialize (d : document) k :
  lookup (deserialize d) k = option_map of_bson (lookup d k).
Proof. apply lookup_map_values. Qed.

Lemma of_bson_defined b : of_bson b <> VUndefined.
Proof. now destruct b. Qed.

Lemma nonempty_string_Some v s :
  nonempty_string v = Some s <-> v = VString s /\ s <> "".
Proof.
  destruct v as [| |b|n|s']; simpl; try (split; [discriminate | intros [H _]; discriminate]).
  destruct s' as [|c s']; simpl.
  - split; [discriminate | intros [H Hne]; injection H as <-; easy].
  - split.
    + intros H; injection H as <-. split; [easy | discriminate].
    + intros [H _]; injection H as <-; reflexivity.
Qed.

Lemma nonempty_string_None v :
  nonempty_string v = None <-> forall s, v = VString s -> s = "".
Proof.
  destruct v as [| |b|n|s']; simpl; try (split; [discriminate | easy]).
  destruct s' as [|c s']; simpl.
  - split; [intros _ s H; now injection H | easy].
  - split; [discriminate | intros H; specialize (H _ eq_refl); discriminate].
Qed.

(** ** The update validator *)

Section Validator.
Context {parse : Parse}.

Lemma switch_case key v : is_case key = true -> exists w, switch key v = Ok w.
Proof.
  unfold is_case, switch_cases, switch. rewrite existsb_app.
  destruct (existsb (String.eqb key) string_cases); [eauto|]. simpl.
  destruct (String.eqb key "decimal_number"); [eauto|].
  destruct (String.eqb key "products_limit"); [eauto|].
  destruct (String.eqb key "hide_billing_address"); [eauto|].
  discriminate.
Qed.

Lemma switch_default key v :
  is_case key = false ->
  switch key v = Throw (Error ("Unknown setting: " ++ key)%string).
Proof.
  unfold is_case, switch_cases, switch. rewrite existsb_app.
  destruct (existsb (String.eqb key) string_cases); [discriminate|]. simpl.
  destruct (String.eqb key "decimal_number"); [discriminate|].
  destruct (String.eqb key "products_limit"); [discriminate|].
  destruct (String.eqb key "hide_billing_address"); [discriminate|].
  reflexivity.
Qed.

Lemma forEach_returns ks data acc :
  forallb (fun k => negb (present data k) || is_case k) ks = true ->
  exists p, forEach ks data acc = Ok p.
Proof.
  revert acc. induction ks as [|key ks IH]; intros acc H; simpl in *.
  - eauto.
  - apply andb_true_iff in H as [Hk Hks]. unfold present in Hk.
    destruct (is_undefined (get data key)); simpl in *.
    + now apply IH.
    + destruct (switch_case key (get data key) Hk) as [w ->]. now apply IH.
Qed.

Lemma forEach_lookup ks data : forall acc p,
  forEach ks data acc = Ok p ->
  forall k,
    (In k ks -> present data k = true -> switch k (get data k) = Ok (get p k)) /\
    (~ (In k ks /\ present data k = true) -> lookup p k = lookup acc k).
Proof.
  unfold present.
  induction ks as [|key ks IH]; intros acc p H k; simpl in H.
  - injection H as <-. split; [intros []|easy].
  - destruct (is_undefined (get data key)) eqn:Hu; simpl in H.
    + destruct (IH _ _ H k) as [IH1 IH2]. split.
      * intros [<-|Hin] Hp; [rewrite Hu in Hp; discriminate | now apply IH1].
      * intros Hn. apply IH2. intros [Hin Hp]. apply Hn. split; [now right|easy].
    + destruct (switch key (get data key)) as [w|e] eqn:Hs; [|discriminate].
      destruct (IH _ _ H k) as [IH1 IH2].
      destruct (in_dec string_dec k ks) as [Hin|Hnin].
      * split; [intros _ Hp; now apply IH1 | intros Hn].
        rewrite IH2; [|simpl in Hn; tauto]. rewrite lookup_set.
        destruct (String.eqb key k) eqn:E; [|easy].
        apply String.eqb_eq in E; subst k. exfalso. apply Hn.
        split; [now left | now rewrite Hu].
      * split.
        -- intros [<-|Hin] Hp; [|easy].
           unfold get at 2. rewrite IH2 by tauto.
           rewrite lookup_set, String.eqb_refl. exact Hs.
        -- intros Hn. rewrite IH2 by tauto. rewrite lookup_set.
           destruct (String.eqb key k) eqn:E; [|easy].
           apply String.eqb_eq in E; subst k. exfalso. apply Hn.
           split; [now left | now rewrite Hu].
Qed.

Lemma forEach_keys ks data : forall acc p,
  NoDup ks ->
  (forall k, In k ks -> ~ In k (keys acc)) ->
  forEach ks data acc = Ok p ->
  keys p = keys acc ++ filter (present data) ks.
Proof.
  unfold present.
  induction ks as [|key ks IH]; intros acc p Hnd Hfresh H; simpl in *.
  - injection H as <-. now rewrite app_nil_r.
  - inversion Hnd as [|? ? Hnotin Hnd']; subst.
    destruct (is_undefined (get data key)) eqn:Hu; simpl in *.
    + apply IH; auto.
    + destruct (switch key (get data key)) as [w|e]; [|discriminate].
      assert (Hfresh' : forall k, In k ks -> ~ In k (keys (set acc key w))).
      { intros k Hin Hk. rewrite keys_set in Hk.
        destruct (has_key acc key).
        - apply (Hfresh k); auto.
        - apply in_app_or in Hk as [Hk|[<-|[]]]; [|easy].
          apply (Hfresh k); auto. }
      rewrite (IH _ _ Hnd' Hfresh' H), keys_set.
      destruct (has_key acc key) eqn:Hk.
      * apply has_key_In in Hk. exfalso. apply (Hfresh key); auto.
      * now rewrite <- app_assoc.
Qed.

Lemma forEach_NoDup ks data : forall acc p,
  NoDup (keys acc) -> forEach ks data acc = Ok p -> NoDup (keys p).
Proof.
  induction ks as [|key ks IH]; intros acc p Hnd H; simpl in H.
  - now injection H as <-.
  - destruct (negb (is_undefined (get data key))); [|eauto].
    destruct (switch key (get data key)); [|discriminate].
    eapply IH; [|exact H]. now apply NoDup_keys_set.
Qed.

End Validator.

(** ** The read path *)

Lemma table_keys k :
  In k (keys defaultsTable) ->
  String.eqb "_id" k = false /\ String.eqb "logo" k = false /\
  is_case k = true.
Proof.
  simpl. intros H.
  repeat (destruct H as [<-|H]; [now repeat split|]). destruct H.
Qed.

Lemma defaultsTable_complete : complete defaultsTable.
Proof.
  intros k H. simpl in H.
  repeat (destruct H as [<-|H]; [discriminate|]). destruct H.
Qed.

Lemma get_merged d r k :
  let base k :=
    if String.eqb "_id" k then VUndefined
    else match r with
         | Some doc =>
             match lookup doc k with
             | Some b => of_bson b
             | None => get d k
             end
         | None => get d k
         end in
  get (merged d r) k =
  if String.eqb "domain" k && is_nullish (base "domain") then VString ""
  else base k.
Proof.
  intros base. unfold merged. cbv zeta.
  remember (assign (assign d _) [("_id", VUndefined)]) as data eqn:Hdata.
  assert (Hbase : forall k', get data k' = base k').
  { intros k'. subst data. unfold base. rewrite get_assign.
    change (lookup [("_id", VUndefined)] k')
      with (if String.eqb "_id" k' then Some VUndefined else None).
    destruct (String.eqb "_id" k'); [easy|]. rewrite get_assign.
    destruct r as [doc|]; [|easy].
    rewrite lookup_deserialize. now destruct (lookup doc k'). }
  clear Hdata. rewrite <- (Hbase "domain").
  destruct (is_nullish (get data "domain")) eqn:E.
  - rewrite get_set, Hbase, andb_true_r. now destruct (String.eqb "domain" k).
  - now rewrite andb_false_r, Hbase.
Qed.

Lemma merged_domain d r : is_nullish (get (merged d r) "domain") = false.
Proof.
  rewrite get_merged.
  change (String.eqb "domain" "domain") with true.
  change (String.eqb "_id" "domain") with false. cbv iota. simpl andb.
  destruct r as [doc|].
  - destruct (lookup doc "domain") as [b|].
    + destruct (is_nullish (of_bson b)) eqn:E; [easy | exact E].
    + destruct (is_nullish (get d "domain")) eqn:E; [easy | exact E].
  - destruct (is_nullish (get d "domain")) eqn:E; [easy | exact E].
Qed.

Lemma merged_id d r : get (merged d r) "_id" = VUndefined.
Proof. now rewrite get_merged. Qed.

Lemma merged_complete d r : complete d -> complete (merged d r).
Proof.
  intros Hd k Hk. rewrite get_merged.
  destruct (table_keys k Hk) as [-> _].
  match goal with
  | |- (if ?c then _ else _) <> _ => destruct c; [discriminate|]
  end.
  destruct r as [doc|]; [|now apply Hd].
  destruct (lookup doc k); [apply of_bson_defined | now apply Hd].
Qed.

Lemma merged_domain_ok d r :
  is_string (get d "domain") = true -> domain_ok r = true ->
  is_string (get (merged d r) "domain") = true.
Proof.
  intros Hd Hr. rewrite get_merged.
  change (String.eqb "domain" "domain") with true.
  change (String.eqb "_id" "domain") with false. cbv iota. simpl andb.
  destruct r as [doc|]; simpl in Hr.
  - destruct (lookup doc "domain") as [[| b | n | s]|]; try discriminate;
      try reflexivity.
    destruct (get d "domain"); try discriminate. reflexivity.
  - destruct (get d "domain"); try discriminate. reflexivity.
Qed.

Section ReadPath.
Context {settings : Settings} {node : Node}.

Lemma changeProperties_domain d r :
  get (fst (changeProperties d r)) "domain" = get (merged d r) "domain".
Proof.
  unfold changeProperties.
  destruct (nonempty_string _).
  - destruct (url_resolve _ _); simpl; [|reflexivity]. now rewrite get_set.
  - simpl. now rewrite get_set.
Qed.

(** While every record read has a string, null or no [domain], the
    [domain] of the defaults object stays a string. *)
Lemma domain_after_reads reads :
  forallb domain_ok reads = true ->
  is_string (get (defaults_after reads) "domain") = true.
Proof.
  unfold defaults_after.
  assert (H : forall d, is_string (get d "domain") = true ->
            forallb domain_ok reads = true ->
            is_string
              (get (fold_left (fun d r => fst (changeProperties d r)) reads d)
                 "domain") = true).
  { induction reads as [|r reads IH]; intros d Hd Hr; simpl in *; [easy|].
    apply andb_true_iff in Hr as [Hr Hrs].
    apply IH; [|exact Hrs]. rewrite changeProperties_domain.
    now apply merged_domain_ok. }
  now apply H.
Qed.

Lemma changeProperties_complete d r :
  complete d -> complete (fst (changeProperties d r)).
Proof.
  intros Hd. pose proof (merged_complete d r Hd) as Hm.
  unfold changeProperties.
  destruct (nonempty_string (get (merged d r) "logo_file")) as [s|].
  - destruct (url_resolve (get (merged d r) "domain") _); simpl; [|exact Hm].
    intros k Hk. rewrite get_set.
    destruct (table_keys k Hk) as (_ & -> & _). now apply Hm.
  - simpl. intros k Hk. rewrite get_set.
    destruct (table_keys k Hk) as (_ & -> & _). now apply Hm.
Qed.

Lemma defaults_after_complete reads : complete (defaults_after reads).
Proof.
  unfold defaults_after.
  assert (H : forall d, complete d ->
            complete (fold_left (fun d r => fst (changeProperties d r)) reads d)).
  { induction reads as [|r reads IH]; intros d Hd; simpl; [easy|].
    apply IH. now apply changeProperties_complete. }
  apply H, defaultsTable_complete.
Qed.

(** A read returns a view as soon as the merged [domain] is a string or no
    logo has to be resolved. *)
Lemma changeProperties_returns d r :
  nonempty_string (get (merged d r) "logo_file") = None \/
  is_string (get (merged d r) "domain") = true ->
  exists view, changeProperties d r = (view, Ok view).
Proof.
  unfold changeProperties. intros [H|H].
  - rewrite H. eauto.
  - destruct (nonempty_string _); [|eauto].
    destruct (get (merged d r) "domain"); try discriminate. simpl. eauto.
Qed.

Lemma typed_records_give_views reads r :
  forallb domain_ok reads = true -> domain_ok r = true ->
  exists view, changeProperties (defaults_after reads) r = (view, Ok view).
Proof.
  intros Hreads Hr. apply changeProperties_returns. right.
  apply merged_domain_ok; [now apply domain_after_reads | exact Hr].
Qed.

(** Otherwise [url.resolve] throws and the read returns nothing. *)
Lemma changeProperties_throws d r s :
  nonempty_string (get (merged d r) "logo_file") = Some s ->
  is_string (get (merged d r) "domain") = false ->
  changeProperties d r =
  (merged d r, Throw (TypeError "Parameter 'url' must be a string")).
Proof.
  unfold changeProperties. intros -> H.
  now destruct (get (merged d r) "domain").
Qed.

(** In a view [_id] is an own property whose value is [undefined]. *)
Lemma view_id_property d r view :
  snd (changeProperties d r) = Ok view ->
  In "_id" (keys view) /\ get view "_id" = VUndefined.
Proof.
  assert (Hin : In "_id" (keys (merged d r))).
  { unfold merged. cbv zeta.
    assert (H : forall o : object, In "_id" (keys (assign o [("_id", VUndefined)]))).
    { intros o. unfold assign. cbn [fold_left fst snd]. rewrite keys_set.
      destruct (has_key o "_id") eqn:E; [now apply has_key_In|].
      apply in_or_app. right. now left. }
    destruct (is_nullish _); [apply In_keys_set|]; apply H. }
  unfold changeProperties.
  destruct (nonempty_string _).
  - destruct (url_resolve _ _); [|discriminate].
    intros [= <-]. split; [now apply In_keys_set|].
    rewrite get_set. apply merged_id.
  - intros [= <-]. split; [now apply In_keys_set|].
    rewrite get_set. apply merged_id.
Qed.

(** The view a service gives on its first read when nothing, or an empty
    record, is persisted: the table of the constructor, [_id] undefined
    and [logo] null. *)
Lemma first_view_of_absent_record r :
  r = None \/ r = Some [] ->
  changeProperties defaultsTable r =
  (defaultsTable ++ [("_id", VUndefined); ("logo", VNull)],
   Ok (defaultsTable ++ [("_id", VUndefined); ("logo", VNull)])).
Proof. intros [-> | ->]; vm_compute; reflexivity. Qed.

(** What a read hands back is the defaults object itself. *)
Lemma changeProperties_alias d r view :
  snd (changeProperties d r) = Ok view -> fst (changeProperties d r) = view.
Proof.
  unfold changeProperties.
  destruct (nonempty_string _).
  - destruct (url_resolve _ _); simpl; [congruence | discriminate].
  - simpl. congruence.
Qed.

End ReadPath.

Section ReadPathClaims.
Context {settings : Settings} {node : Node}.

(** C2 (defect in the code).  The read path does not build the view on a
    copy: [Object.assign] has [this.defaultSettings] as its target.  After
    one read on an empty collection the defaults object has gained the
    properties [_id] and [logo]; after one read of a record whose
    [currency_code] is EUR the defaults object maps [currency_code] to EUR
    where the table of the constructor has USD. *)
Theorem read_mutates_defaultSettings (disk : list string) :
  let st := fst (getSettings (constructor [] disk)) in
  let st' := fst (getSettings
                    (constructor [[("currency_code", BString "EUR")]] disk)) in
  defaultSettings st =
    defaultsTable ++ [("_id", VUndefined); ("logo", VNull)] /\
  defaultSettings st <> defaultsTable /\
  get (defaultSettings st') "currency_code" = VString "EUR" /\
  get defaultsTable "currency_code" = VString "USD".
Proof.
  cbv zeta. split; [|split; [|split]]; try (vm_compute; reflexivity).
  intros H. vm_compute in H. discriminate.
Qed.




End ReadPathClaims.

(** ** The patch built by the validator *)

Lemma get_nil k : get [] k = VUndefined.
Proof. reflexivity. Qed.

Lemma present_nonempty (data : object) k : present data k = true -> data <> [].
Proof. intros H ->. discriminate. Qed.

Lemma defaultsTable_NoDup : NoDup (keys defaultsTable).
Proof.
  change (keys defaultsTable) with (nodup string_dec (keys defaultsTable)).
  apply NoDup_nodup.
Qed.

Lemma accepted_defaultsTable data : accepted defaultsTable data = true.
Proof.
  apply forallb_forall. intros k Hk.
  destruct (table_keys k Hk) as (_ & _ & ->). apply orb_true_r.
Qed.

Section ValidatorClaims.
Context {parse : Parse}.

(** On an input that is not empty and that [accepted] lets through, the
    validator returns a patch: each key of the defaults object that the
    input carries, with the value of its [switch] branch, and no other
    key. *)
Lemma getValidDocumentForUpdate_returns (d data : object) :
  data <> [] ->
  accepted d data = true ->
  exists p,
    getValidDocumentForUpdate d data = Ok (PlainObject p) /\
    NoDup (keys p) /\
    (forall k, In k (keys d) -> present data k = true ->
               switch k (get data k) = Ok (get p k)) /\
    (forall k, ~ (In k (keys d) /\ present data k = true) ->
               lookup p k = None) /\
    (NoDup (keys d) -> keys p = filter (present data) (keys d)).
Proof.
  intros Hne Hacc. unfold getValidDocumentForUpdate.
  destruct data as [|kv data]; [easy|]. simpl List.length. simpl Nat.eqb.
  destruct (forEach_returns (keys d) (kv :: data) [] Hacc) as [p Hp].
  exists p. rewrite Hp. split; [reflexivity|]. split.
  - eapply forEach_NoDup; [|exact Hp]. constructor.
  - repeat split.
    + intros k. now apply (forEach_lookup _ _ _ _ Hp k).
    + intros k Hn. destruct (forEach_lookup _ _ _ _ Hp k) as [_ H2].
      now rewrite H2.
    + intros Hnd. apply (forEach_keys _ _ [] p Hnd); [|exact Hp].
      intros k _ [].
Qed.

(** With the table of the constructor every input that is not empty gives a
    patch, whose keys are the keys of the table that the input carries, in
    the order of the table. *)
Lemma patch_from_defaultsTable (data : object) :
  data <> [] ->
  exists p,
    getValidDocumentForUpdate defaultsTable data = Ok (PlainObject p) /\
    keys p = filter (present data) (keys defaultsTable) /\
    (forall k, In k (keys p) -> switch k (get data k) = Ok (get p k)).
Proof.
  intros Hne.
  destruct (getValidDocumentForUpdate_returns defaultsTable data Hne
              (accepted_defaultsTable data)) as (p & Hp & _ & Hget & _ & Hk).
  specialize (Hk defaultsTable_NoDup).
  exists p. split; [exact Hp|]. split; [exact Hk|].
  intros k Hin. rewrite Hk in Hin. apply filter_In in Hin as [Hin Hpres].
  now apply Hget.
Qed.

(** C7 (defect in the code, the one of C2).  Before any read the input
    [{logo: 'x'}] gives the empty patch.  After one read, which leaves the
    property [logo] in [this.defaultSettings], the same input reaches the
    [default] branch: the validator throws and the update is refused. *)
Theorem unrelated_field_rejected_after_read
    {settings : Settings} {node : Node} {mongo : Mongo} (disk : list string) :
  let st := fst (getSettings (constructor [] disk)) in
  getValidDocumentForUpdate defaultsTable [("logo", VString "x")] =
    Ok (PlainObject []) /\
  getValidDocumentForUpdate (defaultSettings st) [("logo", VString "x")] =
    Throw (Error "Unknown setting: logo") /\
  updateSettings [("logo", VString "x")] st =
    (st, Throw (Error "Unknown setting: logo")).
Proof.
  cbv zeta. split; [|split]; vm_compute; reflexivity.
Qed.

(** C8.  For every input that carries [products_limit] (and that the
    validator lets through), the patch maps [products_limit] to the very
    value [parse.getNumberIfPositive] returned, whatever it is; whereas
    [decimal_number], when carried, is mapped to that value only if it is
    truthy and to [0] otherwise. *)
Theorem products_limit_not_defaulted (d data : object) :
  In "products_limit" (keys d) ->
  present data "products_limit" = true ->
  accepted d data = true ->
  exists p,
    getValidDocumentForUpdate d data = Ok (PlainObject p) /\
    get p "products_limit" = getNumberIfPositive (get data "products_limit") /\
    (In "decimal_number" (keys d) -> present data "decimal_number" = true ->
     get p "decimal_number" =
       if truthy (getNumberIfPositive (get data "decimal_number"))
       then getNumberIfPositive (get data "decimal_number")
       else VNumber (Num 0)).
Proof.
  intros Hin Hpres Hacc.
  destruct (getValidDocumentForUpdate_returns d data
              (present_nonempty _ _ Hpres) Hacc) as (p & Hp & _ & Hget & _).
  exists p. split; [exact Hp|]. split.
  - specialize (Hget _ Hin Hpres). now injection Hget.
  - intros Hin' Hpres'. specialize (Hget _ Hin' Hpres'). now injection Hget.
Qed.

End ValidatorClaims.

(** ** The write path *)

Section WritePath.
Context {parse : Parse} {settings : Settings} {node : Node} {mongo : Mongo}.

Lemma seeded_cons st : exists first rest, seeded st = first :: rest.
Proof. unfold seeded. destruct (collection st); eauto. Qed.

(** [updateSettings] with a document from the validator: count, seed if
    the collection is empty, set the fields on the first document, read. *)
Lemma updateSettings_run (data : object) (st : state) (r : returned) :
  getValidDocumentForUpdate (defaultSettings st) data = Ok r ->
  updateSettings data st = getSettings (written (enumerable r) st).
Proof.
  intros H. unfold updateSettings. rewrite H.
  destruct st as [d c f t]. unfold written, seeded.
  destruct c as [|first rest];
    cbv [bind insertDefaultSettingsIfEmpty countDocuments insertOne
         updateOne_set_upsert ret emit set_collection collection
         defaultSettings files trace List.length Nat.eqb];
    simpl; now rewrite <- !app_assoc.
Qed.

Lemma getSettings_run (st : state) :
  getSettings st =
  (set_defaultSettings
     (fst (changeProperties (defaultSettings st) (hd_error (collection st))))
     (emit FindOne st),
   snd (changeProperties (defaultSettings st) (hd_error (collection st)))).
Proof.
  unfold getSettings, bind, findOne. simpl.
  now destruct (changeProperties _ _).
Qed.

(** The general shape of an update that passed the validator.  The seed is
    [this.defaultSettings] as it stands when the update runs; fields the
    patch does not carry keep the value of the first document. *)
Lemma update_flow (data : object) (st : state) (r : returned) :
  getValidDocumentForUpdate (defaultSettings st) data = Ok r ->
  exists first rest,
    (match collection st with
     | [] => first = with_id (serialize (defaultSettings st)) /\ rest = [] /\
             In (InsertOne first) (trace (fst (updateSettings data st)))
     | c => c = first :: rest /\
            forall x, In (InsertOne x) (trace (fst (updateSettings data st))) ->
                      In (InsertOne x) (trace st)
     end) /\
    collection (fst (updateSettings data st)) =
      assign first (serialize (enumerable r)) :: rest /\
    (forall k, lookup (assign first (serialize (enumerable r))) k =
               match lookup (enumerable r) k with
               | Some v => Some (to_bson v)
               | None => lookup first k
               end) /\
    snd (updateSettings data st) =
      snd (changeProperties (defaultSettings st)
             (Some (assign first (serialize (enumerable r))))).
Proof.
  intros H. rewrite (updateSettings_run _ _ _ H), getSettings_run.
  destruct st as [d c f t]. unfold written, seeded. simpl.
  destruct c as [|first rest]; simpl.
  - exists (with_id (serialize d)), []. repeat split.
    + rewrite !in_app_iff. simpl. tauto.
    + intros k. rewrite lookup_assign, lookup_serialize.
      now destruct (lookup (enumerable r) k).
  - exists first, rest. repeat split.
    + intros x. rewrite !in_app_iff. simpl. intuition discriminate.
    + intros k. rewrite lookup_assign, lookup_serialize.
      now destruct (lookup (enumerable r) k).
Qed.

(** C1 (defect in the code).  On the empty input the validator does not
    throw: it returns an [Error] instance as if it were the patch.
    [updateSettings] therefore goes on, and on an empty collection it
    inserts the seed document before anything else. *)
Theorem empty_input_is_not_rejected (d : object) (disk : list string) :
  let st := fst (updateSettings [] (constructor [] disk)) in
  getValidDocumentForUpdate d [] =
    Ok (ErrorObject "Required fields are missing") /\
  collection st = [with_id (serialize defaultsTable)] /\
  In (InsertOne (with_id (serialize defaultsTable))) (trace st) /\
  snd (updateSettings [] (constructor [] disk)) <>
    Throw (Error "Required fields are missing").
Proof.
  cbv zeta. split; [reflexivity|]. split; [vm_compute; reflexivity|]. split.
  - vm_compute. right. left. reflexivity.
  - intros H. vm_compute in H. discriminate.
Qed.

(** C3 (defect in the code, the one of C2).  A new service on an empty
    collection answers one read and then one update: the seed it inserts
    is the defaults object as the read left it, with a property [logo]
    that the table of the constructor does not have. *)
Theorem seed_after_read_differs_from_table (disk : list string) :
  let st1 := fst (getSettings (constructor [] disk)) in
  let st2 := fst (updateSettings [("currency_code", VString "EUR")] st1) in
  let seed :=
    with_id (serialize
               (defaultsTable ++ [("_id", VUndefined); ("logo", VNull)])) in
  In (InsertOne seed) (trace st2) /\
  lookup seed "logo" = Some BNull /\
  lookup (with_id (serialize defaultsTable)) "logo" = None /\
  seed <> with_id (serialize defaultsTable).
Proof.
  cbv zeta. split; [|split; [|split]].
  - vm_compute. right. right. left. reflexivity.
  - vm_compute. reflexivity.
  - vm_compute. reflexivity.
  - intros H. apply (f_equal (fun d => lookup d "logo")) in H.
    vm_compute in H. discriminate.
Qed.

End WritePath.

(** ** Clearing and deleting the logo *)

Lemma set_idempotent {A : Type} (o : list (string * A)) k v :
  set (set o k v) k v = set o k v.
Proof.
  assert (Hk : has_key (set o k v) k = true).
  { apply has_key_In. rewrite keys_set.
    destruct (has_key o k) eqn:E; [now apply has_key_In|].
    apply in_or_app. right. now left. }
  unfold set at 1. rewrite Hk. unfold set.
  destruct (has_key o k) eqn:E.
  - rewrite map_map. apply map_ext. intros [k0 v0]; simpl.
    destruct (String.eqb k0 k) eqn:E0; simpl; [now rewrite String.eqb_refl|].
    now rewrite E0.
  - rewrite map_app. simpl. rewrite String.eqb_refl. f_equal.
    rewrite <- (map_id o) at 2. apply map_ext_in. intros [k0 v0] Hin; simpl.
    destruct (String.eqb k0 k) eqn:E0; [|easy].
    apply String.eqb_eq in E0; subst k0. exfalso.
    assert (Hin' : In k (keys o)) by (apply (in_map fst) in Hin; exact Hin).
    apply has_key_In in Hin'. congruence.
Qed.

Lemma accepted_logo_file (d : object) v : accepted d [("logo_file", v)] = true.
Proof.
  apply forallb_forall. intros k _. unfold present, get.
  change (lookup [("logo_file", v)] k)
    with (if String.eqb "logo_file" k then Some v else None).
  destruct (String.eqb "logo_file" k) eqn:E; [|reflexivity].
  apply String.eqb_eq in E; subst k. apply orb_true_r.
Qed.

Section Logo.
Context {parse : Parse} {settings : Settings} {node : Node} {mongo : Mongo}.

Lemma forEach_logo_file (ks : list string) : forall acc,
  forEach ks [("logo_file", VNull)] acc =
  Ok (if existsb (String.eqb "logo_file") ks
      then set acc "logo_file" (getString VNull)
      else acc).
Proof.
  induction ks as [|key ks IH]; intros acc; [reflexivity|].
  cbn [forEach existsb]. unfold get.
  change (lookup [("logo_file", VNull)] key)
    with (if String.eqb "logo_file" key then Some VNull else None).
  destruct (String.eqb "logo_file" key) eqn:E.
  - apply String.eqb_eq in E; subst key. cbn. rewrite IH.
    destruct (existsb _ ks); [now rewrite set_idempotent | reflexivity].
  - cbn. apply IH.
Qed.

(** The patch for [{logo_file: null}] is [{logo_file: getString(null)}]. *)
Lemma patch_clearing_logo (d : object) :
  In "logo_file" (keys d) ->
  getValidDocumentForUpdate d [("logo_file", VNull)] =
  Ok (PlainObject [("logo_file", getString VNull)]).
Proof.
  intros Hin. unfold getValidDocumentForUpdate. cbn [keys map List.length Nat.eqb].
  rewrite forEach_logo_file.
  assert (H : existsb (String.eqb "logo_file") (keys d) = true)
    by now apply (proj2 (has_key_In d "logo_file")).
  now rewrite H.
Qed.

Lemma get_lookup (o : object) k v :
  get o k = v -> v <> VUndefined -> lookup o k = Some v.
Proof.
  unfold get. destruct (lookup o k); [congruence|]. intros <-. easy.
Qed.

Lemma lookup_keys {A : Type} (o : list (string * A)) k v :
  lookup o k = Some v -> In k (keys o).
Proof.
  intros H. apply has_key_In.
  destruct (has_key o k) eqn:E; [easy|].
  apply has_key_false in E. congruence.
Qed.

(** The view of a read whose record has the empty string for [logo_file]. *)
Lemma view_without_logo (d : object) (doc : document) :
  lookup doc "logo_file" = Some (BString "") ->
  exists view,
    snd (changeProperties d (Some doc)) = Ok view /\
    get view "logo_file" = VString "" /\
    get view "logo" = VNull.
Proof.
  intros H.
  assert (Hm : get (merged d (Some doc)) "logo_file" = VString "").
  { rewrite get_merged. cbv zeta.
    change (String.eqb "_id" "logo_file") with false.
    change (String.eqb "domain" "logo_file") with false.
    now rewrite H. }
  unfold changeProperties. rewrite Hm. simpl.
  eexists. split; [reflexivity|]. rewrite !get_set. simpl. now rewrite Hm.
Qed.

(** C10.  For a coercion helper that returns strings and maps null to the
    empty string: every update whose input carries [logo_file] (and that the
    validator lets through) stores [getString] of it, a string; and the
    update [{logo_file: null}] stores the empty string, after which the
    view has the empty string for [logo_file] and null for [logo]. *)
Theorem logo_file_stored_as_string (st : state) (data : object) :
  (forall v, is_string (getString v) = true) ->
  getString VNull = VString "" ->
  In "logo_file" (keys (defaultSettings st)) ->
  (present data "logo_file" = true ->
   accepted (defaultSettings st) data = true ->
   exists s first rest,
     getString (get data "logo_file") = VString s /\
     collection (fst (updateSettings data st)) = first :: rest /\
     lookup first "logo_file" = Some (BString s)) /\
  (exists first rest view,
     collection (fst (updateSettings [("logo_file", VNull)] st)) =
       first :: rest /\
     lookup first "logo_file" = Some (BString "") /\
     snd (updateSettings [("logo_file", VNull)] st) = Ok view /\
     get view "logo_file" = VString "" /\
     get view "logo" = VNull).
Proof.
  intros Hstr Hnull Hin. split.
  - intros Hpres Hacc.
    destruct (getValidDocumentForUpdate_returns _ data
                (present_nonempty _ _ Hpres) Hacc) as (p & Hp & _ & Hget & _).
    specialize (Hget _ Hin Hpres). injection Hget as Hget.
    specialize (Hstr (get data "logo_file")).
    destruct (getString (get data "logo_file")) as [| |b|n|s] eqn:Hs;
      try discriminate.
    destruct (update_flow _ _ _ Hp) as (first & rest & _ & Hc & Hl & _).
    exists s, (assign first (serialize (enumerable (PlainObject p)))), rest.
    split; [reflexivity|]. split; [exact Hc|].
    rewrite Hl. simpl enumerable.
    now rewrite (get_lookup p "logo_file" (VString s)).
  - pose proof (patch_clearing_logo _ Hin) as Hp. rewrite Hnull in Hp.
    destruct (update_flow _ _ _ Hp) as (first & rest & _ & Hc & Hl & Hv).
    simpl enumerable in *.
    assert (Hfile : lookup (assign first (serialize [("logo_file", VString "")]))
                      "logo_file" = Some (BString "")).
    { now rewrite Hl. }
    destruct (view_without_logo (defaultSettings st) _ Hfile)
      as (view & Hview & Hvf & Hvl).
    exists (assign first (serialize [("logo_file", VString "")])), rest, view.
    rewrite Hv. now repeat split.
Qed.

End Logo.

Lemma unlink_run (path : string) (st : state) :
  fst (unlink path st) =
  mkState (defaultSettings st) (collection st)
          (filter (fun f => negb (String.eqb path f)) (files st))
          (trace st ++ [Unlink path]).
Proof.
  unfold unlink. destruct (existsb (String.eqb path) (files st)) eqn:E.
  - reflexivity.
  - simpl. unfold emit. f_equal.
    assert (H : forall l, existsb (String.eqb path) l = false ->
                          filter (fun f => negb (String.eqb path f)) l = l).
    { induction l as [|f l IH]; simpl; [easy|].
      intros H. apply orb_false_iff in H as [-> H]. simpl. now rewrite IH. }
    now rewrite H.
Qed.

Lemma unlink_removes (path : string) (l : list string) :
  ~ In path (filter (fun f => negb (String.eqb path f)) l).
Proof.
  intros H. apply filter_In in H as [_ H].
  now rewrite String.eqb_refl in H.
Qed.

Section DeleteLogo.
Context {parse : Parse} {settings : Settings} {node : Node} {mongo : Mongo}.

Lemma getSettings_state (st st1 : state) (view : object) :
  getSettings st = (st1, Ok view) ->
  st1 = mkState view (collection st) (files st) (trace st ++ [FindOne]).
Proof.
  rewrite getSettings_run. intros [= <- H].
  now rewrite (changeProperties_alias _ _ _ H).
Qed.

(** C9.  Given the view the read path returns to [deleteLogo].  When its
    [logo_file] is undefined, null or the empty string, [deleteLogo] stops
    there: collection and files are untouched and the only effect is the
    [findOne] of the read.  When its [logo_file] is a non-empty string,
    [deleteLogo] unlinks the resolved path once and then runs
    [updateSettings({logo_file: null})], whether or not the file was there:
    the path is no longer among the files and the first document has
    [getString(null)] for [logo_file]. *)
Theorem deleteLogo_outcome (st st1 : state) (view : object) :
  getSettings st = (st1, Ok view) ->
  (get view "logo_file" = VUndefined \/ get view "logo_file" = VNull \/
   get view "logo_file" = VString "" ->
   deleteLogo st = (st1, Ok tt) /\
   collection st1 = collection st /\
   files st1 = files st /\
   trace st1 = trace st ++ [FindOne]) /\
  (forall s, get view "logo_file" = VString s -> s <> "" ->
   let filePath := path_resolve (filesUploadPath ++ "/" ++ s) in
   let final := fst (deleteLogo st) in
   deleteLogo st =
     (fst (updateSettings [("logo_file", VNull)] (fst (unlink filePath st1))),
      Ok tt) /\
   ~ In filePath (files final) /\
   trace final =
     trace st ++
     FindOne :: Unlink filePath :: CountDocuments ::
     match collection st with
     | [] => [InsertOne (with_id (serialize view))]
     | _ => []
     end ++
     [UpdateOne [("logo_file", to_bson (getString VNull))]; FindOne] /\
   exists first rest,
     collection final = first :: rest /\
     lookup first "logo_file" = Some (to_bson (getString VNull))).
Proof.
  intros Hread. pose proof (getSettings_state _ _ _ Hread) as Hst1.
  split.
  - intros Hfile.
    assert (Hn : nonempty_string (get view "logo_file") = None)
      by (destruct Hfile as [-> | [-> | ->]]; reflexivity).
    unfold deleteLogo, bind. rewrite Hread, Hn. subst st1. now repeat split.
  - intros s Hfile Hne filePath final.
    assert (Hs : nonempty_string (get view "logo_file") = Some s)
      by now apply nonempty_string_Some.
    assert (Hdel : deleteLogo st =
              (fst (updateSettings [("logo_file", VNull)]
                      (fst (unlink filePath st1))), Ok tt)).
    { unfold deleteLogo, bind. rewrite Hread, Hs. fold filePath.
      destruct (unlink filePath st1) as [u e]. cbn [fst].
      now destruct (updateSettings [("logo_file", VNull)] u). }
    split; [exact Hdel|].
    unfold final. rewrite Hdel. cbn [fst]. rewrite unlink_run.
    set (u := mkState _ _ _ _).
    assert (Hin : In "logo_file" (keys (defaultSettings u))).
    { subst u st1. cbn [defaultSettings].
      apply (lookup_keys view "logo_file" (VString s)).
      now apply get_lookup. }
    rewrite (updateSettings_run _ _ _ (patch_clearing_logo _ Hin)).
    rewrite getSettings_run. subst u st1. cbn. split; [|split].
    + apply unlink_removes.
    + rewrite <- !app_assoc. cbn.
      destruct (collection st); cbn; now rewrite <- ?app_assoc.
    + unfold seeded. cbn.
      destruct (collection st) as [|first rest]; eexists; eexists;
        (split; [reflexivity|]);
        rewrite lookup_set; reflexivity.
Qed.

End DeleteLogo.

(** ** The statements at concrete inputs *)




(** The example of the specification: [x.png] on [http://shop.test]. *)
Example logo_of_shop :
  exists view,
    snd (changeProperties (settings := Sample.settings) (node := Sample.node)
           defaultsTable (Some Sample.shop)) = Ok view /\
    get view "logo" = VString "http://shop.test/images/x.png".
Proof. eexists. split; vm_compute; reflexivity. Qed.

Lemma products_limit_not_defaulted_witness :
  let data := [("products_limit", VString "many");
               ("decimal_number", VNumber (Num (-5)))] in
  In "products_limit" (keys defaultsTable) /\
  present data "products_limit" = true /\
  accepted defaultsTable data = true /\
  exists p,
    getValidDocumentForUpdate (parse := Sample.parse) defaultsTable data =
      Ok (PlainObject p) /\
    get p "products_limit" = VNull /\
    (In "decimal_number" (keys defaultsTable) ->
     present data "decimal_number" = true ->
     get p "decimal_number" = VNumber (Num 0)).
Proof.
  cbv zeta.
  assert (Hin : In "products_limit" (keys defaultsTable))
    by (apply (proj1 (has_key_In defaultsTable "products_limit"));
        vm_compute; reflexivity).
  split; [exact Hin|]. split; [reflexivity|]. split; [vm_compute; reflexivity|].
  apply (products_limit_not_defaulted (parse := Sample.parse) defaultsTable
           [("products_limit", VString "many");
            ("decimal_number", VNumber (Num (-5)))] Hin).
  - reflexivity.
  - vm_compute. reflexivity.
Defined.

Lemma deleteLogo_outcome_witness :
  let st := constructor [Sample.shop] [Sample.logo_path] in
  exists st1 view,
    getSettings (settings := Sample.settings) (node := Sample.node) st =
      (st1, Ok view) /\
    get view "logo_file" = VString "x.png" /\
    let final := fst (deleteLogo (parse := Sample.parse)
                        (settings := Sample.settings) (node := Sample.node)
                        (mongo := Sample.mongo) st) in
    ~ In Sample.logo_path (files final) /\
    trace final =
      [FindOne; Unlink Sample.logo_path; CountDocuments;
       UpdateOne [("logo_file", BString "")]; FindOne] /\
    exists first rest,
      collection final = first :: rest /\
      lookup first "logo_file" = Some (BString "").
Proof.
  cbv zeta.
  destruct (getSettings (settings := Sample.settings) (node := Sample.node)
              (constructor [Sample.shop] [Sample.logo_path]))
    as [st1 r] eqn:Hread.
  pose proof Hread as Hc. vm_compute in Hc. injection Hc as Hst1 Hr.
  subst r.
  eexists. eexists. split; [reflexivity|]. split; [reflexivity|].
  destruct (deleteLogo_outcome (parse := Sample.parse)
              (settings := Sample.settings) (node := Sample.node)
              (mongo := Sample.mongo) _ _ _ Hread) as [_ H].
  destruct (H "x.png") as (_ & Hfiles & Htrace & Hdoc).
  - reflexivity.
  - discriminate.
  - split; [exact Hfiles|]. split; [exact Htrace|]. exact Hdoc.
Defined.

Lemma logo_file_stored_as_string_witness :
  let st := constructor [Sample.shop] [] in
  let data := [("logo_file", VNumber (Num 7))] in
  (forall v, is_string (getString (Parse := Sample.parse) v) = true) /\
  getString (Parse := Sample.parse) VNull = VString "" /\
  In "logo_file" (keys (defaultSettings st)) /\
  (present data "logo_file" = true ->
   accepted (defaultSettings st) data = true ->
   exists s first rest,
     getString (Parse := Sample.parse) (get data "logo_file") = VString s /\
     collection (fst (updateSettings (parse := Sample.parse)
                        (settings := Sample.settings) (node := Sample.node)
                        (mongo := Sample.mongo) data st)) = first :: rest /\
     lookup first "logo_file" = Some (BString s)) /\
  (exists first rest view,
     collection (fst (updateSettings (parse := Sample.parse)
                        (settings := Sample.settings) (node := Sample.node)
                        (mongo := Sample.mongo) [("logo_file", VNull)] st)) =
       first :: rest /\
     lookup first "logo_file" = Some (BString "") /\
     snd (updateSettings (parse := Sample.parse)
            (settings := Sample.settings) (node := Sample.node)
            (mongo := Sample.mongo) [("logo_file", VNull)] st) = Ok view /\
     get view "logo_file" = VString "" /\
     get view "logo" = VNull).
Proof.
  cbv zeta.
  assert (H1 : forall v, is_string (getString (Parse := Sample.parse) v) = true)
    by (intros [| |b|n|s]; reflexivity).
  assert (H2 : getString (Parse := Sample.parse) VNull = VString "")
    by reflexivity.
  assert (H3 : In "logo_file"
                 (keys (defaultSettings (constructor [Sample.shop] []))))
    by (apply (proj1 (has_key_In _ "logo_file")); vm_compute; reflexivity).
  split; [exact H1|]. split; [exact H2|]. split; [exact H3|].
  exact (logo_file_stored_as_string (parse := Sample.parse)
           (settings := Sample.settings) (node := Sample.node)
           (mongo := Sample.mongo)
           (constructor [Sample.shop] []) [("logo_file", VNumber (Num 7))]
           H1 H2 H3).
Defined.

(** ** Further properties of the validator *)

Section ValidatorMore.
Context {parse : Parse}.

Lemma forEach_throws ks data : forall acc,
  forallb (fun k => negb (present data k) || is_case k) ks = false ->
  exists k,
    find (fun k => present data k && negb (is_case k)) ks = Some k /\
    forEach ks data acc = Throw (Error ("Unknown setting: " ++ k)%string).
Proof.
  unfold present.
  induction ks as [|key ks IH]; intros acc H; simpl in H; [discriminate|].
  cbn [find forEach].
  destruct (is_undefined (get data key)) eqn:Hu; simpl in *.
  - now apply IH.
  - destruct (is_case key) eqn:Hc; simpl in *.
    + destruct (switch_case key (get data key) Hc) as [w ->]. now apply IH.
    + exists key. split; [reflexivity|]. now rewrite switch_default.
Qed.

Lemma forEach_ext ks data data' : forall acc,
  (forall k, In k ks -> get data k = get data' k) ->
  forEach ks data acc = forEach ks data' acc.
Proof.
  induction ks as [|key ks IH]; intros acc H; [reflexivity|].
  cbn [forEach]. rewrite <- (H key) by now left.
  destruct (negb (is_undefined (get data key))).
  - destruct (switch key (get data key)); [|reflexivity].
    apply IH. intros k Hk. apply H. now right.
  - apply IH. intros k Hk. apply H. now right.
Qed.

Lemma returned_patch_accepted (d data p : object) :
  getValidDocumentForUpdate d data = Ok (PlainObject p) ->
  data <> [] /\ accepted d data = true.
Proof.
  unfold getValidDocumentForUpdate.
  destruct data as [|kv data]; [discriminate|]. simpl List.length. simpl Nat.eqb.
  intros H. split; [discriminate|].
  destruct (accepted d (kv :: data)) eqn:Hacc; [reflexivity|].
  destruct (forEach_throws (keys d) (kv :: data) [] Hacc) as (k & _ & Hk).
  rewrite Hk in H. discriminate.
Qed.

(** X1.  An input that is not empty and carries a key of the defaults
    object for which the [switch] has no case is rejected: the validator
    throws [Unknown setting] naming the first such key in the order of the
    defaults object, and [updateSettings] throws the same error without
    touching the state (no database call). *)
Theorem unknown_key_rejected_before_any_write
    {settings : Settings} {node : Node} {mongo : Mongo}
    (st : state) (data : object) :
  data <> [] ->
  accepted (defaultSettings st) data = false ->
  exists k,
    find (fun k => present data k && negb (is_case k))
         (keys (defaultSettings st)) = Some k /\
    getValidDocumentForUpdate (defaultSettings st) data =
      Throw (Error ("Unknown setting: " ++ k)%string) /\
    updateSettings data st = (st, Throw (Error ("Unknown setting: " ++ k)%string)).
Proof.
  intros Hne Hacc.
  destruct (forEach_throws (keys (defaultSettings st)) data [] Hacc)
    as (k & Hfind & Hk).
  assert (Hv : getValidDocumentForUpdate (defaultSettings st) data =
               Throw (Error ("Unknown setting: " ++ k)%string)).
  { unfold getValidDocumentForUpdate.
    destruct data as [|kv data]; [easy|]. simpl List.length. simpl Nat.eqb.
    now rewrite Hk. }
  exists k. split; [exact Hfind|]. split; [exact Hv|].
  unfold updateSettings. now rewrite Hv.
Qed.

(** X2.  The validator looks at the input only under the keys of the
    defaults object: two inputs, neither empty, that agree under those keys
    give the same outcome, so a key of the input that the defaults object
    does not have changes nothing. *)
Theorem validator_reads_only_known_keys (d data data' : object) :
  data <> [] -> data' <> [] ->
  (forall k, In k (keys d) -> get data k = get data' k) ->
  getValidDocumentForUpdate d data = getValidDocumentForUpdate d data'.
Proof.
  intros Hne Hne' H. unfold getValidDocumentForUpdate.
  destruct data as [|kv data]; [easy|].
  destruct data' as [|kv' data']; [easy|].
  simpl List.length. simpl Nat.eqb.
  now rewrite (forEach_ext _ _ _ [] H).
Qed.

(** X3.  Whatever the defaults object has become, a patch the validator
    returns holds each key once, and only keys that have a case in the
    [switch], that the defaults object has and that the input carries, each
    with the value of its case. *)
Theorem patch_holds_only_switch_cases (d data p : object) :
  getValidDocumentForUpdate d data = Ok (PlainObject p) ->
  NoDup (keys p) /\
  forall k, In k (keys p) ->
    is_case k = true /\ In k (keys d) /\ present data k = true /\
    switch k (get data k) = Ok (get p k).
Proof.
  intros H. destruct (returned_patch_accepted _ _ _ H) as [Hne Hacc].
  destruct (getValidDocumentForUpdate_returns d data Hne Hacc)
    as (p' & Hp' & Hnd & Hget & Hnone & _).
  rewrite H in Hp'. injection Hp' as <-.
  split; [exact Hnd|]. intros k Hk.
  assert (Hin : In k (keys d) /\ present data k = true).
  { destruct (in_dec string_dec k (keys d)) as [Hd|Hd];
      [destruct (present data k) eqn:Hp; [easy|] |];
      exfalso; apply (proj1 (lookup_None_keys p k)) in Hk; try easy;
      apply Hnone; intros [? ?]; congruence. }
  destruct Hin as [Hd Hp]. repeat split; try easy.
  - unfold accepted in Hacc.
    apply (proj1 (forallb_forall _ _) Hacc) in Hd. rewrite Hp in Hd. exact Hd.
  - now apply Hget.
Qed.

(** X4.  A service whose defaults object is still the table of the
    constructor rejects no input: every input that is not empty gives a
    patch, whose keys are the keys of the table that the input carries, in
    the order of the table, each with the value of its case. *)
Theorem new_service_accepts_every_input (data : object) :
  data <> [] ->
  exists p,
    getValidDocumentForUpdate defaultsTable data = Ok (PlainObject p) /\
    keys p = filter (present data) (keys defaultsTable) /\
    (forall k, In k (keys p) -> switch k (get data k) = Ok (get p k)) /\
    (forall k, ~ In k (keys defaultsTable) -> lookup p k = None).
Proof.
  intros Hne.
  destruct (patch_from_defaultsTable data Hne) as (p & Hp & Hk & Hget).
  exists p. split; [exact Hp|]. split; [exact Hk|]. split; [exact Hget|].
  intros k Hn. apply lookup_None_keys. rewrite Hk. intros Hin.
  apply filter_In in Hin as [Hin _]. exact (Hn Hin).
Qed.

End ValidatorMore.

(** ** Further properties of the read path *)

Lemma In_keys_assign_source {A : Type} (s : list (string * A)) k :
  forall o, In k (keys s) -> In k (keys (assign o s)).
Proof.
  unfold assign.
  induction s as [|[k0 v0] s IH]; intros o Hin; simpl in *; [easy|].
  destruct Hin as [<-|Hin]; [|now apply IH].
  assert (H : forall (l : list (string * A)) o', In k0 (keys o') ->
            In k0 (keys (fold_left (fun t kv => set t (fst kv) (snd kv)) l o'))).
  { induction l as [|[k1 v1] l IHl]; intros o' Ho'; simpl; [easy|].
    apply IHl. now apply In_keys_set. }
  apply H. rewrite keys_set.
  destruct (has_key o k0) eqn:E; [now apply has_key_In|].
  apply in_or_app. right. now left.
Qed.

Lemma In_keys_merged d (doc : document) k :
  In k (keys doc) -> In k (keys (merged d (Some doc))).
Proof.
  intros Hin. unfold merged. cbv zeta.
  assert (H : In k (keys (assign (assign d (deserialize doc))
                            [("_id", VUndefined)]))).
  { apply In_keys_assign. apply In_keys_assign_source.
    unfold deserialize. now rewrite keys_map_values. }
  destruct (is_nullish _); [now apply In_keys_set | exact H].
Qed.

Section ReadPathMore.
Context {settings : Settings} {node : Node}.

Lemma In_keys_changeProperties d (doc : document) k :
  In k (keys doc) -> In k (keys (fst (changeProperties d (Some doc)))).
Proof.
  intros Hin. pose proof (In_keys_merged d doc k Hin) as Hm.
  unfold changeProperties.
  destruct (nonempty_string _).
  - destruct (url_resolve _ _); simpl; [now apply In_keys_set | exact Hm].
  - simpl. now apply In_keys_set.
Qed.

Lemma view_of_merged d r view :
  snd (changeProperties d r) = Ok view ->
  forall k, String.eqb "logo" k = false -> get view k = get (merged d r) k.
Proof.
  unfold changeProperties. intros H k Hk.
  destruct (nonempty_string _).
  - destruct (url_resolve _ _); [|discriminate].
    injection H as <-. now rewrite get_set, Hk.
  - injection H as <-. now rewrite get_set, Hk.
Qed.

(** X5.  In a view the record wins over the defaults object, field by
    field: under every key other than [_id], [logo] and [domain] the view
    has the value of the record when the record has the key, and otherwise
    the value the defaults object held before the read.  [domain] follows
    the same rule, except that null or undefined becomes the empty string,
    so the [domain] of a view is never null or undefined. *)
Theorem view_overlays_record_on_defaults
    (d : object) (r : option document) (view : object) :
  snd (changeProperties d r) = Ok view ->
  let overlay k :=
    match r with
    | Some doc => match lookup doc k with
                  | Some b => of_bson b
                  | None => get d k
                  end
    | None => get d k
    end in
  (forall k, k <> "_id" -> k <> "logo" -> k <> "domain" ->
             get view k = overlay k) /\
  get view "domain" =
    (if is_nullish (overlay "domain") then VString "" else overlay "domain") /\
  is_nullish (get view "domain") = false.
Proof.
  intros H overlay.
  assert (Hd : get view "domain" = get (merged d r) "domain")
    by now apply (view_of_merged d r view H).
  split; [|split].
  - intros k Hid Hlogo Hdom.
    rewrite (view_of_merged d r view H) by now apply String.eqb_neq.
    rewrite get_merged. cbv zeta.
    assert (E1 : String.eqb "_id" k = false)
      by (apply String.eqb_neq; congruence).
    assert (E2 : String.eqb "domain" k = false)
      by (apply String.eqb_neq; congruence).
    now rewrite E1, E2.
  - rewrite Hd, get_merged. cbv zeta.
    change (String.eqb "domain" "domain") with true.
    change (String.eqb "_id" "domain") with false. cbv iota. simpl andb.
    reflexivity.
  - rewrite Hd. apply merged_domain.
Qed.

Lemma get_merged_domain d r :
  get (merged d r) "domain" =
  let b := match r with
           | Some doc => match lookup doc "domain" with
                         | Some b => of_bson b
                         | None => get d "domain"
                         end
           | None => get d "domain"
           end in
  if is_nullish b then VString "" else b.
Proof.
  rewrite get_merged. cbv zeta.
  change (String.eqb "domain" "domain") with true.
  change (String.eqb "_id" "domain") with false. cbv iota. simpl andb.
  reflexivity.
Qed.

Lemma get_merged_other d r k :
  String.eqb "domain" k = false ->
  get (merged d r) k =
  if String.eqb "_id" k then VUndefined
  else match r with
       | Some doc => match lookup doc k with
                     | Some b => of_bson b
                     | None => get d k
                     end
       | None => get d k
       end.
Proof. intros E. rewrite get_merged. cbv zeta. now rewrite E. Qed.

Lemma merged_again d r view :
  snd (changeProperties d r) = Ok view ->
  forall k, String.eqb "logo" k = false ->
            get (merged view r) k = get (merged d r) k.
Proof.
  intros H k Hk.
  assert (Hv : forall k', String.eqb "logo" k' = false ->
                          get view k' = get (merged d r) k')
    by now apply view_of_merged.
  destruct (String.eqb "domain" k) eqn:Ed.
  - apply String.eqb_eq in Ed; subst k.
    pose proof (merged_domain d r) as Hnn.
    rewrite (get_merged_domain view r). cbv zeta.
    rewrite (Hv "domain" eq_refl).
    assert (Hsame : (if is_nullish (get (merged d r) "domain")
                     then VString "" else get (merged d r) "domain")
                    = get (merged d r) "domain") by now rewrite Hnn.
    destruct r as [doc|]; [|exact Hsame].
    destruct (lookup doc "domain") as [b|] eqn:El; [|exact Hsame].
    rewrite (get_merged_domain d (Some doc)). cbv zeta. now rewrite El.
  - rewrite (get_merged_other view r k Ed), (get_merged_other d r k Ed).
    destruct (String.eqb "_id" k) eqn:Ei; [reflexivity|].
    destruct r as [doc|].
    + destruct (lookup doc k) eqn:El; [reflexivity|].
      rewrite (Hv k Hk), (get_merged_other d (Some doc) k Ed).
      now rewrite Ei, El.
    + rewrite (Hv k Hk), (get_merged_other d None k Ed). now rewrite Ei.
Qed.

Lemma read_again (d : object) (r : option document) (view : object) :
  snd (changeProperties d r) = Ok view ->
  exists view',
    changeProperties view r = (view', Ok view') /\
    forall k, get view' k = get view k.
Proof.
  intros H.
  pose proof (merged_again d r view H) as Hm.
  assert (Hfile : get (merged view r) "logo_file" = get (merged d r) "logo_file")
    by now apply Hm.
  assert (Hdom : get (merged view r) "domain" = get (merged d r) "domain")
    by now apply Hm.
  revert H. unfold changeProperties. rewrite Hfile, Hdom.
  destruct (nonempty_string (get (merged d r) "logo_file")) as [s|].
  - destruct (url_resolve (get (merged d r) "domain") _) as [logo|e];
      [|discriminate].
    intros [= <-]. eexists. split; [reflexivity|].
    intros k. rewrite !get_set.
    destruct (String.eqb "logo" k) eqn:E; [reflexivity | now apply Hm].
  - intros [= <-]. eexists. split; [reflexivity|].
    intros k. rewrite !get_set.
    destruct (String.eqb "logo" k) eqn:E; [reflexivity | now apply Hm].
Qed.

(** X6.  Reading again changes nothing: when a read of a record returns a
    view, a second read of the same record by the same service, whose
    defaults object the first read has written to, returns a view with the
    same value under every key. *)
Theorem second_read_gives_same_view
    (d : object) (r : option document) (view : object) :
  snd (changeProperties d r) = Ok view ->
  exists view',
    snd (changeProperties (fst (changeProperties d r)) r) = Ok view' /\
    forall k, get view' k = get view k.
Proof.
  intros H. rewrite (changeProperties_alias d r view H).
  destruct (read_again d r view H) as (view' & Hv & Hk).
  exists view'. now rewrite Hv.
Qed.

Lemma forallb_false_In {A : Type} (f : A -> bool) (l : list A) x :
  In x l -> f x = false -> forallb f l = false.
Proof.
  intros Hin Hf. destruct (forallb f l) eqn:E; [|reflexivity].
  rewrite (proj1 (forallb_forall f l) E x Hin) in Hf. discriminate.
Qed.

Lemma get_single (k k' : string) (v : value) :
  get [(k, v)] k' = if String.eqb k k' then v else VUndefined.
Proof. unfold get. cbn [lookup]. now destruct (String.eqb k k'). Qed.

(** X7.  What a read leaves in the defaults object blocks later updates.
    After a read, every key of the record read, the key [_id] and (when the
    read returned a view) the key [logo] are keys of the defaults object;
    if such a key has no case in the [switch], an update whose input is
    that key with a defined value throws [Unknown setting] for it and
    makes no database call. *)
Theorem key_left_by_read_blocks_update
    {parse : Parse} {mongo : Mongo}
    (st : state) (k : string) (v : value) :
  (exists doc, hd_error (collection st) = Some doc /\ In k (keys doc)) \/
  k = "_id" \/
  (k = "logo" /\ exists view, snd (getSettings st) = Ok view) ->
  is_case k = false ->
  is_undefined v = false ->
  let st1 := fst (getSettings st) in
  In k (keys (defaultSettings st1)) /\
  updateSettings [(k, v)] st1 =
    (st1, Throw (Error ("Unknown setting: " ++ k)%string)).
Proof.
  intros Hk Hcase Hv st1.
  assert (Hin : In k (keys (defaultSettings st1))).
  { unfold st1. rewrite getSettings_run. cbn [fst defaultSettings set_defaultSettings].
    destruct Hk as [(doc & Hdoc & Hin) | [-> | [-> (view & Hview)]]].
    - rewrite Hdoc. now apply In_keys_changeProperties.
    - assert (Hm : forall d r, In "_id" (keys (merged d r))).
      { intros d r. unfold merged. cbv zeta.
        assert (H : forall o : object,
                  In "_id" (keys (assign o [("_id", VUndefined)]))).
        { intros o. unfold assign. cbn [fold_left fst snd]. rewrite keys_set.
          destruct (has_key o "_id") eqn:E; [now apply has_key_In|].
          apply in_or_app. right. now left. }
        destruct (is_nullish _); [apply In_keys_set|]; apply H. }
      unfold changeProperties.
      destruct (nonempty_string _).
      + destruct (url_resolve _ _); simpl; [apply In_keys_set|]; apply Hm.
      + simpl. apply In_keys_set, Hm.
    - rewrite getSettings_run in Hview. cbn [snd] in Hview.
      rewrite (changeProperties_alias _ _ _ Hview).
      revert Hview. unfold changeProperties.
      assert (Hs : forall (o : object) x, In "logo" (keys (set o "logo" x))).
      { intros o x. rewrite keys_set.
        destruct (has_key o "logo") eqn:E; [now apply has_key_In|].
        apply in_or_app. right. now left. }
      destruct (nonempty_string _).
      + destruct (url_resolve _ _); [|discriminate]. intros [= <-]. apply Hs.
      + intros [= <-]. apply Hs. }
  split; [exact Hin|].
  assert (Hacc : accepted (defaultSettings st1) [(k, v)] = false).
  { apply (forallb_false_In _ _ k Hin). unfold present.
    rewrite get_single, String.eqb_refl, Hv, Hcase. reflexivity. }
  destruct (forEach_throws (keys (defaultSettings st1)) [(k, v)] [] Hacc)
    as (k' & Hfind & Hthrow).
  apply find_some in Hfind as [_ Hk'].
  apply andb_true_iff in Hk' as [Hp _]. unfold present in Hp.
  rewrite get_single in Hp.
  destruct (String.eqb k k') eqn:E; [|discriminate].
  apply String.eqb_eq in E; subst k'.
  unfold updateSettings, getValidDocumentForUpdate.
  cbn [keys map List.length Nat.eqb]. now rewrite Hthrow.
Qed.

End ReadPathMore.

(** ** Further properties of the write path *)

Section WritePathMore.
Context {parse : Parse} {settings : Settings} {node : Node} {mongo : Mongo}.

Lemma written_collection (fields : object) (st : state) :
  collection (written fields st) =
  assign (match collection st with
          | [] => with_id (serialize (defaultSettings st))
          | first :: _ => first
          end) (serialize fields) :: tl (collection st).
Proof. unfold written, seeded. cbn. now destruct (collection st). Qed.

Lemma getSettings_collection (st : state) :
  collection (fst (getSettings st)) = collection st /\
  files (fst (getSettings st)) = files st /\
  trace (fst (getSettings st)) = trace st ++ [FindOne].
Proof. rewrite getSettings_run. now cbn. Qed.

(** X8.  An update whose input passed the validator works on one
    document.  On an empty collection it first inserts the defaults object
    as it stands (with an identity); it then sets the fields of the patch on
    the first document and leaves every other document, every field the
    patch does not hold and the files as they were; it inserts nothing when
    the collection is not empty; and it returns what a read of the updated
    document returns. *)
Theorem update_sets_fields_on_first_document
    (data : object) (st : state) (r : returned) :
  getValidDocumentForUpdate (defaultSettings st) data = Ok r ->
  let first := match collection st with
               | [] => with_id (serialize (defaultSettings st))
               | first :: _ => first
               end in
  let updated := assign first (serialize (enumerable r)) in
  let st' := fst (updateSettings data st) in
  collection st' = updated :: tl (collection st) /\
  List.length (collection st') = Nat.max 1 (List.length (collection st)) /\
  (forall k, lookup updated k =
             match lookup (enumerable r) k with
             | Some v => Some (to_bson v)
             | None => lookup first k
             end) /\
  files st' = files st /\
  (forall x, In (InsertOne x) (trace st') ->
             In (InsertOne x) (trace st) \/ (collection st = [] /\ x = first)) /\
  snd (updateSettings data st) =
    snd (changeProperties (defaultSettings st) (Some updated)).
Proof.
  intros H first updated st'.
  unfold st'. rewrite (updateSettings_run _ _ _ H).
  destruct (getSettings_collection (written (enumerable r) st))
    as (Hc & Hf & Ht).
  rewrite Hc, Hf, Ht, written_collection. fold first. fold updated.
  split; [reflexivity|]. split; [|split; [|split; [|split]]].
  - simpl. destruct (collection st); reflexivity.
  - intros k. unfold updated. rewrite lookup_assign, lookup_serialize.
    now destruct (lookup (enumerable r) k).
  - reflexivity.
  - intros x. unfold written, first. cbn [trace]. rewrite !in_app_iff.
    destruct (collection st); simpl; intuition (try discriminate).
    right. split; [reflexivity|]. congruence.
  - rewrite getSettings_run. cbn [snd]. rewrite written_collection.
    reflexivity.
Qed.

Lemma merged_agree d (doc doc' : document) k :
  String.eqb "logo" k = false ->
  lookup doc' k = lookup doc k ->
  get (merged d (Some doc')) k = get (merged d (Some doc)) k.
Proof.
  intros _ Hl.
  destruct (String.eqb "domain" k) eqn:Ed.
  - apply String.eqb_eq in Ed; subst k.
    rewrite !get_merged_domain. cbv zeta. now rewrite Hl.
  - rewrite !get_merged_other by exact Ed. now rewrite Hl.
Qed.

(** X9.  An update leaves alone what its patch does not name.  With a
    document in the collection, compare the view a read would have given
    before the update with the view the update returns: they agree under
    every key the patch does not hold, [logo] apart; and they agree on
    [logo] too when the patch holds neither [logo_file] nor [domain]. *)
Theorem update_keeps_other_fields
    (data p : object) (st : state) (first : document) (rest : list document)
    (before after : object) :
  collection st = first :: rest ->
  getValidDocumentForUpdate (defaultSettings st) data = Ok (PlainObject p) ->
  snd (changeProperties (defaultSettings st) (Some first)) = Ok before ->
  snd (updateSettings data st) = Ok after ->
  (forall k, lookup p k = None -> k <> "logo" -> get after k = get before k) /\
  (lookup p "logo_file" = None -> lookup p "domain" = None ->
   get after "logo" = get before "logo").
Proof.
  intros Hc Hp Hb Ha.
  rewrite (updateSettings_run _ _ _ Hp), getSettings_run in Ha.
  cbn [snd] in Ha. rewrite written_collection, Hc in Ha.
  cbn [hd_error enumerable defaultSettings written] in Ha.
  set (updated := assign first (serialize p)) in *.
  assert (Hl : forall k, lookup p k = None -> lookup updated k = lookup first k).
  { intros k Hk. unfold updated.
    now rewrite lookup_assign, lookup_serialize, Hk. }
  assert (Hm : forall k, lookup p k = None -> String.eqb "logo" k = false ->
               get (merged (defaultSettings st) (Some updated)) k =
               get (merged (defaultSettings st) (Some first)) k).
  { intros k Hk E. apply merged_agree; [exact E | now apply Hl]. }
  split.
  - intros k Hk Hlogo.
    assert (E : String.eqb "logo" k = false)
      by (apply String.eqb_neq; congruence).
    rewrite (view_of_merged _ _ _ Ha k E), (view_of_merged _ _ _ Hb k E).
    now apply Hm.
  - intros Hfile Hdom. revert Ha Hb. unfold changeProperties.
    unfold document in *.
    rewrite (Hm "logo_file" Hfile eq_refl), (Hm "domain" Hdom eq_refl).
    destruct (nonempty_string _).
    + destruct (url_resolve _ _); [|discriminate].
      intros [= <-] [= <-]. now rewrite !get_set.
    + intros [= <-] [= <-]. now rewrite !get_set.
Qed.

(** X10.  The view an update returns is the view the next read returns:
    a read that follows the update gives the same value under every key,
    and leaves collection and files as the update left them. *)
Theorem read_after_update_gives_same_view
    (data : object) (st : state) (after : object) :
  snd (updateSettings data st) = Ok after ->
  let st' := fst (updateSettings data st) in
  exists view,
    snd (getSettings st') = Ok view /\
    (forall k, get view k = get after k) /\
    collection (fst (getSettings st')) = collection st' /\
    files (fst (getSettings st')) = files st'.
Proof.
  intros Ha st'.
  destruct (getValidDocumentForUpdate (defaultSettings st) data) as [r|e] eqn:Hv.
  - unfold st'. rewrite (updateSettings_run _ _ _ Hv) in *.
    set (w := written (enumerable r) st) in *.
    rewrite getSettings_run in Ha. cbn [snd] in Ha.
    destruct (read_again _ _ _ Ha) as (view & Hview & Hk).
    exists view. split; [|split; [exact Hk|]].
    + rewrite (getSettings_run (fst (getSettings w))).
      cbn [snd]. rewrite (proj1 (getSettings_collection w)).
      rewrite (getSettings_run w).
      cbn [fst defaultSettings set_defaultSettings emit].
      rewrite (changeProperties_alias _ _ _ Ha). now rewrite Hview.
    + destruct (getSettings_collection (fst (getSettings w))) as (-> & -> & _).
      now split.
  - unfold updateSettings in Ha. rewrite Hv in Ha. discriminate.
Qed.

End WritePathMore.

(** ** Further properties of the deletion of the logo *)

Section DeleteLogoMore.
Context {parse : Parse} {settings : Settings} {node : Node} {mongo : Mongo}.

Lemma written_files (fields : object) (st : state) :
  files (written fields st) = files st.
Proof. reflexivity. Qed.

Lemma unlink_fields (path : string) (st : state) :
  defaultSettings (fst (unlink path st)) = defaultSettings st /\
  collection (fst (unlink path st)) = collection st /\
  files (fst (unlink path st)) =
    filter (fun f => negb (String.eqb path f)) (files st).
Proof. now rewrite unlink_run. Qed.

(** The three ways [deleteLogo] runs. *)
Lemma deleteLogo_run (st : state) :
  match snd (getSettings st) with
  | Throw e => deleteLogo st = (fst (getSettings st), Throw e)
  | Ok view =>
      match nonempty_string (get view "logo_file") with
      | None => deleteLogo st = (fst (getSettings st), Ok tt)
      | Some s =>
          deleteLogo st =
          (fst (getSettings
                  (written [("logo_file", getString VNull)]
                     (fst (unlink (path_resolve (filesUploadPath ++ "/" ++ s))
                             (fst (getSettings st)))))),
           Ok tt)
      end
  end.
Proof.
  unfold deleteLogo, bind.
  destruct (getSettings st) as [st1 [view|e]] eqn:Hread; cbn [fst snd];
    [|reflexivity].
  destruct (nonempty_string (get view "logo_file")) as [s|] eqn:Hs;
    [|reflexivity].
  pose proof (getSettings_state _ _ _ Hread) as Hst1.
  apply nonempty_string_Some in Hs as [Hfile Hne].
  set (filePath := path_resolve (filesUploadPath ++ "/" ++ s)).
  assert (Hin : In "logo_file" (keys (defaultSettings (fst (unlink filePath st1))))).
  { rewrite unlink_run. subst st1. cbn [defaultSettings].
    apply (lookup_keys view "logo_file" (VString s)).
    now apply get_lookup. }
  pose proof (updateSettings_run _ _ _ (patch_clearing_logo _ Hin)) as Hup.
  cbn [enumerable] in Hup. rewrite <- Hup.
  destruct (unlink filePath st1) as [u e]. cbn [fst].
  now destruct (updateSettings [("logo_file", VNull)] u).
Qed.

Lemma pair_eq_fst {A B : Type} (p : A * B) a b : p = (a, b) -> fst p = a.
Proof. now intros ->. Qed.

Lemma pair_eq_snd {A B : Type} (p : A * B) a b : p = (a, b) -> snd p = b.
Proof. now intros ->. Qed.

Lemma getSettings_snd (st : state) :
  snd (getSettings st) =
  snd (changeProperties (defaultSettings st) (hd_error (collection st))).
Proof. exact (pair_eq_snd _ _ _ (getSettings_run st)). Qed.

Lemma getSettings_defaults (st : state) (view : object) :
  snd (getSettings st) = Ok view ->
  defaultSettings (fst (getSettings st)) = view.
Proof.
  intros H. rewrite getSettings_snd in H.
  rewrite (pair_eq_fst _ _ _ (getSettings_run st)).
  exact (changeProperties_alias _ _ _ H).
Qed.

(** X11.  [deleteLogo] touches nothing but the logo.  It creates no file,
    and the only path it can remove is the one resolved from the
    [logo_file] of the view; in the collection it leaves every document
    after the first as it was, and of the first document it changes at most
    the field [logo_file]. *)
Theorem deleteLogo_touches_only_the_logo (st : state) :
  let final := fst (deleteLogo st) in
  (forall f, In f (files final) -> In f (files st)) /\
  (forall f, In f (files st) -> ~ In f (files final) ->
     exists view s,
       snd (getSettings st) = Ok view /\
       get view "logo_file" = VString s /\ s <> "" /\
       f = path_resolve (filesUploadPath ++ "/" ++ s)) /\
  (forall first rest, collection st = first :: rest ->
     exists first',
       collection final = first' :: rest /\
       forall k, k <> "logo_file" -> lookup first' k = lookup first k).
Proof.
  intros final. unfold final. pose proof (deleteLogo_run st) as Hrun.
  destruct (getSettings_collection st) as (Hc & Hf & _).
  destruct (snd (getSettings st)) as [view|e] eqn:Hread.
  - destruct (nonempty_string (get view "logo_file")) as [s|] eqn:Hs.
    + rewrite (pair_eq_fst _ _ _ Hrun).
      set (filePath := path_resolve (filesUploadPath ++ "/" ++ s)).
      set (u := fst (unlink filePath (fst (getSettings st)))).
      destruct (unlink_fields filePath (fst (getSettings st)))
        as (_ & Huc & Huf). fold u in Huc, Huf.
      destruct (getSettings_collection
                  (written [("logo_file", getString VNull)] u))
        as (Hwc & Hwf & _).
      rewrite Hwc, Hwf, written_collection, written_files, Huc, Huf, Hc, Hf.
      clearbody u. clear Hwc Hwf Huc Huf Hrun.
      apply nonempty_string_Some in Hs as [Hfile Hne].
      split; [|split].
      * intros f Hin. now apply filter_In in Hin.
      * intros f Hin Hout. exists view, s. repeat split; try easy.
        destruct (String.eqb filePath f) eqn:E;
          [now apply String.eqb_eq in E|].
        exfalso. apply Hout. apply filter_In. split; [exact Hin|].
        now rewrite E.
      * intros first rest Hcol. rewrite Hcol. cbn [tl].
        eexists. split; [reflexivity|]. intros k Hk.
        rewrite lookup_assign. cbn [serialize map fst snd lookup].
        assert (E : String.eqb "logo_file" k = false)
          by (apply String.eqb_neq; congruence).
        now rewrite E.
    + rewrite (pair_eq_fst _ _ _ Hrun), Hc, Hf.
      split; [easy|]. split; [easy|].
      intros first rest ->. now exists first.
  - rewrite (pair_eq_fst _ _ _ Hrun), Hc, Hf.
    split; [easy|]. split; [easy|].
    intros first rest ->. now exists first.
Qed.

(** X12.  Deleting twice is safe.  When [getString(null)] is not a
    non-empty string and the read of the first [deleteLogo] returns a view,
    a second [deleteLogo] finds no logo: it unlinks nothing and writes
    nothing, its only effect being the [findOne] of its read. *)
Theorem second_deleteLogo_does_nothing (st : state) (view : object) :
  nonempty_string (of_bson (to_bson (getString VNull))) = None ->
  snd (getSettings st) = Ok view ->
  let st' := fst (deleteLogo st) in
  snd (deleteLogo st') = Ok tt /\
  collection (fst (deleteLogo st')) = collection st' /\
  files (fst (deleteLogo st')) = files st' /\
  trace (fst (deleteLogo st')) = trace st' ++ [FindOne].
Proof.
  intros Hnull Hread st'.
  assert (Hnoop : forall view', snd (getSettings st') = Ok view' ->
             nonempty_string (get view' "logo_file") = None ->
             snd (deleteLogo st') = Ok tt /\
             collection (fst (deleteLogo st')) = collection st' /\
             files (fst (deleteLogo st')) = files st' /\
             trace (fst (deleteLogo st')) = trace st' ++ [FindOne]).
  { intros view' Hv Hn. pose proof (deleteLogo_run st') as Hrun.
    rewrite Hv, Hn in Hrun.
    rewrite (pair_eq_fst _ _ _ Hrun), (pair_eq_snd _ _ _ Hrun).
    split; [reflexivity|]. apply getSettings_collection. }
  pose proof (deleteLogo_run st) as Hrun. rewrite Hread in Hrun.
  destruct (nonempty_string (get view "logo_file")) as [s|] eqn:Hs.
  - set (w := written [("logo_file", getString VNull)]
                (fst (unlink (path_resolve (filesUploadPath ++ "/" ++ s))
                        (fst (getSettings st))))) in *.
    assert (Hw : exists doc, hd_error (collection w) = Some doc /\
                 lookup doc "logo_file" = Some (to_bson (getString VNull))).
    { unfold w. rewrite written_collection. eexists. split; [reflexivity|].
      rewrite lookup_assign. reflexivity. }
    destruct Hw as (doc & Hdoc & Hfile). clearbody w.
    assert (Hm : forall d, nonempty_string
                   (get (merged d (Some doc)) "logo_file") = None).
    { intros d. rewrite get_merged_other by reflexivity.
      change (String.eqb "_id" "logo_file") with false. cbv iota.
      now rewrite Hfile. }
    assert (Hst' : st' = fst (getSettings w))
      by (unfold st'; apply (pair_eq_fst _ _ _ Hrun)).
    assert (Hview : forall d, exists v,
               snd (changeProperties d (Some doc)) = Ok v /\
               nonempty_string (get v "logo_file") = None).
    { intros d. unfold changeProperties. rewrite (Hm d).
      eexists. split; [reflexivity|]. rewrite get_set.
      change (String.eqb "logo" "logo_file") with false. cbv iota.
      apply Hm. }
    destruct (Hview (defaultSettings (fst (getSettings w)))) as (v & Hv & Hn).
    apply (Hnoop v); [|exact Hn].
    rewrite Hst', getSettings_snd.
    rewrite (proj1 (getSettings_collection w)), Hdoc. exact Hv.
  - assert (Hst' : st' = fst (getSettings st))
      by (unfold st'; apply (pair_eq_fst _ _ _ Hrun)).
    pose proof (getSettings_defaults _ _ Hread) as Hd.
    rewrite getSettings_snd in Hread.
    destruct (read_again _ _ _ Hread) as (v & Hv & Hk).
    apply (Hnoop v); [|now rewrite Hk].
    rewrite Hst', getSettings_snd.
    rewrite (proj1 (getSettings_collection st)), Hd.
    exact (pair_eq_snd _ _ _ Hv).
Qed.

End DeleteLogoMore.

(** ** The upload of a logo *)

Section UploadLemmas.
Context {parse : Parse} {settings : Settings} {node : Node} {mongo : Mongo}
        {utils : Utils}.

Lemma forEach_logo_file_value (v : value) (ks : list string) : forall acc,
  is_undefined v = false ->
  forEach ks [("logo_file", v)] acc =
  Ok (if existsb (String.eqb "logo_file") ks
      then set acc "logo_file" (getString v)
      else acc).
Proof.
  intros acc Hv. revert acc.
  induction ks as [|key ks IH]; intros acc; [reflexivity|].
  cbn [forEach existsb]. rewrite get_single.
  destruct (String.eqb "logo_file" key) eqn:E.
  - apply String.eqb_eq in E; subst key. rewrite Hv. cbn. rewrite IH.
    destruct (existsb _ ks); [now rewrite set_idempotent | reflexivity].
  - cbn. apply IH.
Qed.

(** An input that is just [logo_file], with a defined value, always gives
    a patch. *)
Lemma patch_logo_file (d : object) (v : value) :
  is_undefined v = false ->
  getValidDocumentForUpdate d [("logo_file", v)] =
  Ok (PlainObject (if has_key d "logo_file"
                   then [("logo_file", getString v)]
                   else [])).
Proof.
  intros Hv. unfold getValidDocumentForUpdate.
  cbn [keys map List.length Nat.eqb].
  rewrite (forEach_logo_file_value v _ [] Hv). unfold has_key, keys.
  now destruct (existsb _ _).
Qed.

Lemma flushed_fields (path : string) (st : state) :
  defaultSettings (flushed path st) = defaultSettings st /\
  collection (flushed path st) = collection st /\
  trace (flushed path st) = trace st /\
  In path (files (flushed path st)) /\
  incl (files st) (files (flushed path st)).
Proof.
  unfold flushed.
  destruct (existsb (String.eqb path) (files st)) eqn:E; cbn.
  - repeat split; try apply incl_refl.
    apply existsb_exists in E as (x & Hx & Hxe).
    apply String.eqb_eq in Hxe. now subst.
  - repeat split.
    + apply in_or_app. right. now left.
    + now apply incl_appl, incl_refl.
Qed.

(** The file parts of a request change nothing but the files on disk and
    the two locals. *)
Lemma parts_run (uploadDir : string) (parts rest : list incoming) :
  forall u,
  forallb is_file_part parts = true ->
  exists u',
    form_parse uploadDir (parts ++ rest) u = form_parse uploadDir rest u' /\
    sent u' = sent u /\ ensured u' = ensured u /\
    defaultSettings (service u') = defaultSettings (service u) /\
    collection (service u') = collection (service u) /\
    trace (service u') = trace (service u) /\
    incl (files (service u)) (files (service u')).
Proof.
  induction parts as [|[file bytes|e] parts IH]; intros u H; simpl in H;
    [|cbn [app form_parse] | discriminate].
  - exists u. repeat split; try reflexivity. apply incl_refl.
  - destruct (IH (onPart uploadDir file bytes u) H)
      as (u' & Hrun & Hs & He & Hd & Hc & Ht & Hf).
    exists u'. split; [exact Hrun|].
    destruct (flushed_fields (File.path (onFileBegin uploadDir file))
                (service u)) as (Hd' & Hc' & Ht' & _ & Hf').
    unfold onPart, onFile, set_service in *. cbn in *.
    rewrite Hs, He, Hd, Hc, Ht, Hd', Hc', Ht'. repeat split.
    eapply incl_tran; [exact Hf' | exact Hf].
Qed.

Lemma parts_then_last (uploadDir : string) (parts rest : list incoming)
    (file : File.t) (bytes : nat) (u : upload) :
  forallb is_file_part parts = true ->
  exists u',
    form_parse uploadDir (parts ++ FilePart file bytes :: rest) u =
      form_parse uploadDir rest u' /\
    file_name u' = VString (getCorrectFileName (File.name file)) /\
    file_size u' = bytes /\
    sent u' = sent u /\ ensured u' = ensured u /\
    defaultSettings (service u') = defaultSettings (service u) /\
    collection (service u') = collection (service u) /\
    trace (service u') = trace (service u) /\
    incl (files (service u)) (files (service u')) /\
    In (uploadDir ++ "/" ++ getCorrectFileName (File.name file))%string
       (files (service u')).
Proof.
  intros H.
  destruct (parts_run uploadDir parts (FilePart file bytes :: rest) u H)
    as (u0 & Hrun & Hs & He & Hd & Hc & Ht & Hf).
  exists (onPart uploadDir file bytes u0). rewrite Hrun.
  split; [reflexivity|].
  destruct (flushed_fields (File.path (onFileBegin uploadDir file))
              (service u0)) as (Hd' & Hc' & Ht' & Hin & Hf').
  unfold onPart, onFile, set_service. cbn [file_name file_size sent ensured
    service File.name File.path File.size].
  rewrite Hd', Hc', Ht'. repeat split; try assumption.
  eapply incl_tran; [exact Hf | exact Hf'].
Qed.

Lemma last_or_nil {A : Type} (l : list A) :
  l = [] \/ exists l' a, l = l' ++ [a].
Proof.
  destruct l as [|x l]; [now left|]. right.
  destruct (@exists_last A (x :: l)) as (l' & a & H); [discriminate|].
  now exists l', a.
Qed.


(** What [onEnd] does once a file with a name has been received. *)
Lemma onEnd_with_file (u : upload) (n : string) :
  file_name u = VString n -> n <> "" ->
  onEnd u =
  (send (mkResponse 200
           [("file", VString n);
            ("size", VNumber (Num (Z.of_nat (file_size u))))])
        (set_service
           (fst (getSettings
                   (written (if has_key (defaultSettings (service u)) "logo_file"
                             then [("logo_file", getString (VString n))]
                             else [])
                            (service u))))
           u),
   Ok tt).
Proof.
  intros Hn Hne. unfold onEnd. rewrite Hn.
  assert (Ht : truthy (VString n) = true).
  { simpl. destruct (String.eqb n "") eqn:E; [|reflexivity].
    now apply String.eqb_eq in E. }
  rewrite Ht.
  pose proof (patch_logo_file (defaultSettings (service u)) (VString n) eq_refl)
    as Hp.
  rewrite Hp.
  pose proof (updateSettings_run _ _ _ Hp) as Hup. cbn [enumerable] in Hup.
  destruct (updateSettings [("logo_file", VString n)] (service u))
    as [st r] eqn:E.
  now rewrite <- Hup.
Qed.



Lemma lookup_with_id (d : document) k :
  String.eqb "_id" k = false -> lookup (with_id d) k = lookup d k.
Proof.
  intros E. unfold with_id.
  destruct (lookup d "_id") as [[| | |]|]; try reflexivity;
    now rewrite lookup_set, E.
Qed.


End UploadLemmas.

(** ** The further statements at concrete inputs *)

Lemma unknown_key_rejected_before_any_write_witness :
  [("logo", VString "x")] <> [] /\
  accepted (defaultSettings SampleUpload.after_read) [("logo", VString "x")]
    = false /\
  updateSettings (parse := Sample.parse) (settings := Sample.settings)
    (node := Sample.node) (mongo := Sample.mongo)
    [("logo", VString "x")] SampleUpload.after_read =
  (SampleUpload.after_read, Throw (Error "Unknown setting: logo")).
Proof.
  assert (H1 : [("logo", VString "x")] <> ([] : object)) by discriminate.
  assert (H2 : accepted (defaultSettings SampleUpload.after_read)
                 [("logo", VString "x")] = false)
    by (vm_compute; reflexivity).
  split; [exact H1|]. split; [exact H2|].
  destruct (unknown_key_rejected_before_any_write (parse := Sample.parse)
              (settings := Sample.settings) (node := Sample.node)
              (mongo := Sample.mongo) SampleUpload.after_read
              [("logo", VString "x")] H1 H2) as (k & Hfind & _ & Hup).
  vm_compute in Hfind. injection Hfind as <-. exact Hup.
Defined.

Lemma validator_reads_only_known_keys_witness :
  let data := [("language", VString "fr")] in
  let data' := [("language", VString "fr"); ("colour", VString "red")] in
  data <> [] /\ data' <> [] /\
  (forall k, In k (keys defaultsTable) -> get data k = get data' k) /\
  getValidDocumentForUpdate (parse := Sample.parse) defaultsTable data =
  getValidDocumentForUpdate (parse := Sample.parse) defaultsTable data'.
Proof.
  cbv zeta.
  assert (H1 : [("language", VString "fr")] <> ([] : object)) by discriminate.
  assert (H2 : [("language", VString "fr"); ("colour", VString "red")]
               <> ([] : object)) by discriminate.
  assert (H3 : forall k, In k (keys defaultsTable) ->
                 get [("language", VString "fr")] k =
                 get [("language", VString "fr"); ("colour", VString "red")] k).
  { intros k Hk. simpl in Hk.
    repeat (destruct Hk as [<-|Hk]; [reflexivity|]). destruct Hk. }
  split; [exact H1|]. split; [exact H2|]. split; [exact H3|].
  exact (validator_reads_only_known_keys (parse := Sample.parse)
           defaultsTable _ _ H1 H2 H3).
Defined.

Lemma patch_holds_only_switch_cases_witness :
  let d := defaultSettings SampleUpload.after_read in
  let data := [("language", VString "fr"); ("colour", VString "red")] in
  let p := [("language", VString "fr")] in
  getValidDocumentForUpdate (parse := Sample.parse) d data =
    Ok (PlainObject p) /\
  NoDup (keys p) /\
  forall k, In k (keys p) ->
    is_case k = true /\ In k (keys d) /\ present data k = true /\
    switch (parse := Sample.parse) k (get data k) = Ok (get p k).
Proof.
  cbv zeta.
  assert (H : getValidDocumentForUpdate (parse := Sample.parse)
                (defaultSettings SampleUpload.after_read)
                [("language", VString "fr"); ("colour", VString "red")] =
              Ok (PlainObject [("language", VString "fr")]))
    by (vm_compute; reflexivity).
  split; [exact H|].
  exact (patch_holds_only_switch_cases (parse := Sample.parse) _ _ _ H).
Defined.

Lemma new_service_accepts_every_input_witness :
  let data := [("logo", VString "x"); ("decimal_number", VNumber (Num (-5)))] in
  data <> [] /\
  exists p,
    getValidDocumentForUpdate (parse := Sample.parse) defaultsTable data =
      Ok (PlainObject p) /\
    keys p = filter (present data) (keys defaultsTable) /\
    (forall k, In k (keys p) ->
       switch (parse := Sample.parse) k (get data k) = Ok (get p k)) /\
    (forall k, ~ In k (keys defaultsTable) -> lookup p k = None).
Proof.
  cbv zeta.
  assert (H : [("logo", VString "x"); ("decimal_number", VNumber (Num (-5)))]
              <> ([] : object)) by discriminate.
  split; [exact H|].
  exact (new_service_accepts_every_input (parse := Sample.parse) _ H).
Defined.

Lemma view_overlays_record_on_defaults_witness :
  exists view,
    snd (changeProperties (settings := Sample.settings) (node := Sample.node)
           defaultsTable (Some Sample.shop)) = Ok view /\
    get view "language" = VString "en" /\
    get view "logo_file" = VString "x.png" /\
    is_nullish (get view "domain") = false.
Proof.
  eexists. split; [vm_compute; reflexivity|].
  pose proof (view_overlays_record_on_defaults (settings := Sample.settings)
                (node := Sample.node) defaultsTable (Some Sample.shop) _
                ltac:(vm_compute; reflexivity)) as H.
  cbv zeta in H. destruct H as (Hk & _ & Hd).
  split; [|split; [|exact Hd]].
  - rewrite (Hk "language"); [reflexivity | discriminate ..].
  - rewrite (Hk "logo_file"); [reflexivity | discriminate ..].
Defined.

Lemma second_read_gives_same_view_witness :
  exists view,
    snd (changeProperties (settings := Sample.settings) (node := Sample.node)
           defaultsTable (Some Sample.shop)) = Ok view /\
    exists view',
      snd (changeProperties (settings := Sample.settings)
             (node := Sample.node)
             (fst (changeProperties (settings := Sample.settings)
                     (node := Sample.node) defaultsTable (Some Sample.shop)))
             (Some Sample.shop)) = Ok view' /\
      forall k, get view' k = get view k.
Proof.
  eexists. split; [vm_compute; reflexivity|].
  apply (second_read_gives_same_view (settings := Sample.settings)
           (node := Sample.node) defaultsTable (Some Sample.shop)).
  vm_compute. reflexivity.
Defined.

Lemma key_left_by_read_blocks_update_witness :
  let st := constructor [[("theme", BString "dark")]] [] in
  let st1 := fst (getSettings (settings := Sample.settings)
                    (node := Sample.node) st) in
  is_case "theme" = false /\
  In "theme" (keys (defaultSettings st1)) /\
  updateSettings (parse := Sample.parse) (settings := Sample.settings)
    (node := Sample.node) (mongo := Sample.mongo)
    [("theme", VString "light")] st1 =
  (st1, Throw (Error "Unknown setting: theme")).
Proof.
  cbv zeta. split; [reflexivity|].
  apply (key_left_by_read_blocks_update (settings := Sample.settings)
           (node := Sample.node) (parse := Sample.parse)
           (mongo := Sample.mongo)
           (constructor [[("theme", BString "dark")]] []) "theme"
           (VString "light")).
  - left. exists [("theme", BString "dark")]. split; [reflexivity|]. now left.
  - reflexivity.
  - reflexivity.
Defined.

Lemma update_sets_fields_on_first_document_witness :
  let st := constructor [] [] in
  let data := [("currency_code", VString "EUR")] in
  getValidDocumentForUpdate (parse := Sample.parse) (defaultSettings st) data =
    Ok (PlainObject data) /\
  let st' := fst (updateSettings (parse := Sample.parse)
                    (settings := Sample.settings) (node := Sample.node)
                    (mongo := Sample.mongo) data st) in
  List.length (collection st') = 1%nat /\
  files st' = [] /\
  exists first,
    hd_error (collection st') = Some first /\
    lookup first "currency_code" = Some (BString "EUR") /\
    lookup first "language" = Some (BString "en").
Proof.
  cbv zeta.
  assert (H : getValidDocumentForUpdate (parse := Sample.parse)
                (defaultSettings (constructor [] []))
                [("currency_code", VString "EUR")] =
              Ok (PlainObject [("currency_code", VString "EUR")]))
    by (vm_compute; reflexivity).
  split; [exact H|].
  pose proof (update_sets_fields_on_first_document (parse := Sample.parse)
                (settings := Sample.settings) (node := Sample.node)
                (mongo := Sample.mongo) _ _ _ H) as T.
  cbv zeta in T. destruct T as (Tc & Tl & Tk & Tf & _ & _).
  split; [exact Tl|]. split; [exact Tf|].
  eexists. split; [rewrite Tc; reflexivity|].
  split; rewrite Tk; vm_compute; reflexivity.
Defined.

Lemma update_keeps_other_fields_witness :
  let st := constructor [Sample.shop] [] in
  let data := [("language", VString "fr")] in
  exists before after,
    collection st = Sample.shop :: [] /\
    getValidDocumentForUpdate (parse := Sample.parse) (defaultSettings st) data =
      Ok (PlainObject data) /\
    snd (changeProperties (settings := Sample.settings) (node := Sample.node)
           (defaultSettings st) (Some Sample.shop)) = Ok before /\
    snd (updateSettings (parse := Sample.parse) (settings := Sample.settings)
           (node := Sample.node) (mongo := Sample.mongo) data st) = Ok after /\
    get after "currency_code" = get before "currency_code" /\
    get after "logo" = get before "logo".
Proof.
  cbv zeta. eexists. eexists.
  split; [reflexivity|].
  split; [vm_compute; reflexivity|].
  split; [vm_compute; reflexivity|].
  split; [vm_compute; reflexivity|].
  destruct (update_keeps_other_fields (parse := Sample.parse)
              (settings := Sample.settings) (node := Sample.node)
              (mongo := Sample.mongo)
              [("language", VString "fr")] [("language", VString "fr")]
              (constructor [Sample.shop] []) Sample.shop [] _ _
              eq_refl
              ltac:(vm_compute; reflexivity)
              ltac:(vm_compute; reflexivity)
              ltac:(vm_compute; reflexivity)) as [Hk Hlogo].
  split.
  - apply Hk; [reflexivity | discriminate].
  - apply Hlogo; reflexivity.
Defined.

Lemma read_after_update_gives_same_view_witness :
  let st := constructor [Sample.shop] [] in
  let data := [("language", VString "fr")] in
  exists after,
    snd (updateSettings (parse := Sample.parse) (settings := Sample.settings)
           (node := Sample.node) (mongo := Sample.mongo) data st) = Ok after /\
    let st' := fst (updateSettings (parse := Sample.parse)
                      (settings := Sample.settings) (node := Sample.node)
                      (mongo := Sample.mongo) data st) in
    exists view,
      snd (getSettings (settings := Sample.settings) (node := Sample.node) st')
        = Ok view /\
      (forall k, get view k = get after k) /\
      collection (fst (getSettings (settings := Sample.settings)
                         (node := Sample.node) st')) = collection st' /\
      files (fst (getSettings (settings := Sample.settings)
                    (node := Sample.node) st')) = files st'.
Proof.
  cbv zeta. eexists. split; [vm_compute; reflexivity|].
  apply (read_after_update_gives_same_view (parse := Sample.parse)
           (settings := Sample.settings) (node := Sample.node)
           (mongo := Sample.mongo)).
  vm_compute. reflexivity.
Defined.

Lemma second_deleteLogo_does_nothing_witness :
  let st := constructor [Sample.shop] [Sample.logo_path] in
  let st' := fst (deleteLogo (parse := Sample.parse)
                    (settings := Sample.settings) (node := Sample.node)
                    (mongo := Sample.mongo) st) in
  nonempty_string
    (of_bson (to_bson (getString (Parse := Sample.parse) VNull))) = None /\
  (exists view,
     snd (getSettings (settings := Sample.settings) (node := Sample.node) st)
       = Ok view) /\
  snd (deleteLogo (parse := Sample.parse) (settings := Sample.settings)
         (node := Sample.node) (mongo := Sample.mongo) st') = Ok tt /\
  collection (fst (deleteLogo (parse := Sample.parse)
                     (settings := Sample.settings) (node := Sample.node)
                     (mongo := Sample.mongo) st')) = collection st' /\
  files (fst (deleteLogo (parse := Sample.parse)
                (settings := Sample.settings) (node := Sample.node)
                (mongo := Sample.mongo) st')) = files st' /\
  trace (fst (deleteLogo (parse := Sample.parse)
                (settings := Sample.settings) (node := Sample.node)
                (mongo := Sample.mongo) st')) = trace st' ++ [FindOne].
Proof.
  cbv zeta.
  assert (H1 : nonempty_string
                 (of_bson (to_bson (getString (Parse := Sample.parse) VNull)))
               = None) by reflexivity.
  split; [exact H1|].
  assert (H2 : exists view,
             snd (getSettings (settings := Sample.settings)
                    (node := Sample.node)
                    (constructor [Sample.shop] [Sample.logo_path])) = Ok view)
    by (eexists; vm_compute; reflexivity).
  split; [exact H2|]. destruct H2 as [view H2].
  exact (second_deleteLogo_does_nothing (parse := Sample.parse)
           (settings := Sample.settings) (node := Sample.node)
           (mongo := Sample.mongo)
           (constructor [Sample.shop] [Sample.logo_path]) view H1 H2).
Defined.




